(** * napari.viewer: the Viewer orchestration layer

    A shallow embedding of [napari/viewer.py].  The module is a thin layer
    over Qt and over the rest of napari: every method of [Viewer] reads a few
    attributes and calls collaborators.  The embedding therefore keeps

    - a heap of Python objects addressed by reference, so that attribute
      chains such as [self.window.qt_viewer.console] and object identity are
      explicit;
    - a trace of the calls that leave [viewer.py], in program order;
    - an environment giving what the process and the collaborators answer
      (platform name, [sys.frozen], which calls raise).

    Methods are written in a small state-and-exception monad in which the
    effects performed before an exception are kept, as in Python. *)

From stdpp Require Import base strings list gmap.
From Stdlib Require Import ZArith.
From Stdlib Require Strings.Byte.

Local Open Scope Z_scope.
Local Open Scope string_scope.
Local Open Scope list_scope.

(** ** Python values *)

Inductive pyval :=
| PyNone
| PyBool (b : bool)
| PyInt (n : Z)
| PyStr (s : string).

(** Truth value testing, as used by [and], [not] and [if]. *)
Definition truthy (v : pyval) : bool :=
  match v with
  | PyNone => false
  | PyBool b => b
  | PyInt n => negb (Z.eqb n 0)
  | PyStr s => negb (String.eqb s "")
  end.

(** References into the heap. *)
Definition ref := nat.

(** A filesystem path built by [os.path.join], kept as its components. *)
Definition path := list string.

(** The [variables] argument of [update_console]: a dict, a string of names
    separated by spaces, or a list/tuple of names. *)
Inductive variables :=
| VarDict (d : gmap string pyval)
| VarStr (names : string)
| VarSeq (names : list string).

(** ** Exceptions *)

Inductive exn :=
| RuntimeError (msg : string)
| AttributeError (attr : string)
| OSError (msg : string)
| ValueError (msg : string)
| TypeError (msg : string).

(** ** Calls leaving the module *)

Inductive event :=
| EvQApplicationInstance
| EvPlatformSystem
| EvGetattrSysFrozen
| EvReadNapariAppId
| EvSetCurrentProcessExplicitAppUserModelID (app_id : pyval)
| EvQIcon (logopath : path)
| EvSetWindowIcon (icon : path)
| EvViewerModelInit (self : ref) (title : string) (ndisplay : Z)
    (order : option (list Z)) (axis_labels : option (list string))
| EvQtViewer (viewer : ref)
| EvWindow (qt_viewer : ref) (show : bool)
| EvConsolePush (console : ref) (v : variables)
| EvWindowScreenshot (window : ref) (p : option string)
| EvQtViewerScreenshot (qt_viewer : ref) (p : option string)
| EvQtUpdateUI (func : string) (args : list pyval) (kwargs : gmap string pyval)
| EvPoolStart (pool : ref) (task : ref)
| EvWindowShow (window : ref)
| EvWindowClose (window : ref).

(** ** Images *)

(** One RGBA pixel, a byte per channel. *)
Record rgba := {
  red : Byte.byte;
  green : Byte.byte;
  blue : Byte.byte;
  alpha : Byte.byte
}.

(** What is currently drawn in a rectangular region of the screen: its size
    and the pixel at every (row from the top, column from the left). *)
Record surface := {
  height : nat;
  width : nat;
  pixel : nat -> nat -> rgba
}.

Inductive dtype := uint8.

(** A numpy array: shape, element type, and the elements in row-major (C)
    order. *)
Record ndarray := {
  shape : list nat;
  elt : dtype;
  data : list Z
}.

(** ** Heap objects *)

(** The attributes of [ViewerModel] that the constructor receives. *)
Record model := {
  title : string;
  ndisplay : Z;
  order : option (list Z);
  axis_labels : option (list string)
}.

(** A [QtUpdateUI] runnable. *)
Record task := {
  func : string;
  args : list pyval;
  kwargs : gmap string pyval
}.

Inductive obj :=
| ViewerObj (m : option model) (window : option ref)
| QtViewerObj (viewer : ref) (console : option ref) (pool : ref)
| WindowObj (qt_viewer : ref) (visible : bool)
| ConsoleObj (pushed : list variables)
| PoolObj (queue : list ref)
| TaskObj (t : task).

(** ** The process *)

(** The [QApplication] singleton: only its window icon matters here. *)
Record qapplication := { windowIcon : option path }.

Record World := {
  qapp : option qapplication;
  heap : list obj;
  trace : list event
}.

(** What the surroundings answer.  [raises] says which collaborator calls
    raise, and with what; [hresult] is the status that
    [SetCurrentProcessExplicitAppUserModelID] returns when it returns. *)
Record Env := {
  system : string;
  frozen : option pyval;
  _napari_app_id : pyval;
  __file__dirname : string;
  raises : event -> option exn;
  hresult : Z;
  has_console : bool;
  window_surface : surface;
  canvas_surface : surface
}.

(** ** The monad *)

Inductive res (A : Type) :=
| Ok (a : A)
| Raise (e : exn).
Arguments Ok {A} a.
Arguments Raise {A} e.

Definition M (A : Type) : Type := World -> res A * World.

Definition ret {A} (a : A) : M A := fun w => (Ok a, w).

Definition raise {A} (e : exn) : M A := fun w => (Raise e, w).

Definition bind {A B} (c : M A) (k : A -> M B) : M B :=
  fun w =>
    match c w with
    | (Ok a, w') => k a w'
    | (Raise e, w') => (Raise e, w')
    end.

Declare Scope py_scope.
Delimit Scope py_scope with py.
Notation "x <- c ;; k" := (bind c (fun x => k))
  (at level 100, c at next level, right associativity) : py_scope.
Notation "c ;; k" := (bind c (fun _ => k))
  (at level 100, right associativity) : py_scope.
Local Open Scope py_scope.

(** World updates. *)
Definition logged (ev : event) (w : World) : World :=
  {| qapp := qapp w; heap := heap w; trace := trace w ++ [ev] |}.

Definition with_heap (h : list obj) (w : World) : World :=
  {| qapp := qapp w; heap := h; trace := trace w |}.

(** Appending to the trace. *)
Definition log (ev : event) : M unit :=
  fun w => (Ok tt, logged ev w).

(** A collaborator call: it is recorded, then it raises if the environment
    says so. *)
Definition call (env : Env) (ev : event) : M unit :=
  log ev ;;
  match raises env ev with
  | Some e => raise e
  | None => ret tt
  end.

(** Allocation of a new object; its reference is the next free address. *)
Definition alloc (o : obj) : M ref :=
  fun w => (Ok (length (heap w)), with_heap (heap w ++ [o]) w).

Definition load (r : ref) : M (option obj) :=
  fun w => (Ok (heap w !! r), w).

Definition store (r : ref) (o : obj) : M unit :=
  fun w => (Ok tt, with_heap (<[r := o]> (heap w)) w).

(** ** Attribute access

    Reading an attribute that the object does not have raises
    [AttributeError]. *)

Definition get_window (self : ref) : M ref :=
  o <- load self ;;
  match o with
  | Some (ViewerObj _ (Some window)) => ret window
  | _ => raise (AttributeError "window")
  end.

Definition get_qt_viewer (window : ref) : M ref :=
  o <- load window ;;
  match o with
  | Some (WindowObj qt_viewer _) => ret qt_viewer
  | _ => raise (AttributeError "qt_viewer")
  end.

Definition get_console (qt_viewer : ref) : M (option ref) :=
  o <- load qt_viewer ;;
  match o with
  | Some (QtViewerObj _ console _) => ret console
  | _ => raise (AttributeError "console")
  end.

Definition get_pool (qt_viewer : ref) : M ref :=
  o <- load qt_viewer ;;
  match o with
  | Some (QtViewerObj _ _ pool) => ret pool
  | _ => raise (AttributeError "pool")
  end.

(** [self.window = window] *)
Definition set_window (self window : ref) : M unit :=
  o <- load self ;;
  match o with
  | Some (ViewerObj m _) => store self (ViewerObj m (Some window))
  | _ => raise (TypeError "self")
  end.

(** ** Process and platform queries *)

(** [QApplication.instance()]: the singleton if it exists, or [None]. *)
Definition QApplication_instance : M (option qapplication) :=
  log EvQApplicationInstance ;;
  fun w => (Ok (qapp w), w).

(** [platform.system()] *)
Definition platform_system (env : Env) : M string :=
  log EvPlatformSystem ;;
  ret (system env).

(** [getattr(sys, 'frozen', False)] *)
Definition getattr_sys_frozen (env : Env) : M pyval :=
  log EvGetattrSysFrozen ;;
  ret (default (PyBool false) (frozen env)).

(** [self._napari_app_id] *)
Definition read_napari_app_id (env : Env) : M pyval :=
  log EvReadNapariAppId ;;
  ret (_napari_app_id env).

(** The class attribute as [viewer.py] sets it:
    ['napari.napari.viewer.' + str(__version__)]. *)
Definition default_napari_app_id (version : string) : pyval :=
  PyStr ("napari.napari.viewer." +:+ version).

(** [ctypes.windll.shell32.SetCurrentProcessExplicitAppUserModelID]: a
    [windll] function returns its integer status. *)
Definition SetCurrentProcessExplicitAppUserModelID (env : Env) (app_id : pyval)
  : M Z :=
  call env (EvSetCurrentProcessExplicitAppUserModelID app_id) ;;
  ret (hresult env).

(** [join(dirname(__file__), 'resources', 'logo.png')] *)
Definition logopath (env : Env) : path :=
  [__file__dirname env; "resources"; "logo.png"].

(** [QIcon(logopath)] *)
Definition QIcon (env : Env) (p : path) : M path :=
  call env (EvQIcon p) ;;
  ret p.

(** [app.setWindowIcon(icon)] *)
Definition setWindowIcon (env : Env) (icon : path) : M unit :=
  call env (EvSetWindowIcon icon) ;;
  fun w => (Ok tt, {| qapp := Some {| windowIcon := Some icon |};
                      heap := heap w; trace := trace w |}).

(** ** Collaborators

    [ViewerModel], [QtViewer], [Window], [QtUpdateUI] and the console are
    defined elsewhere in napari; the thread pool is Qt's.  Each call is
    recorded in the trace and may raise, as the environment says. *)

(** Modelled from the spec: [ViewerModel.__init__] is absent from the sources
    at hand.  The spec gives the model the attributes title, displayed
    dimensions, dimension order and axis labels, set from the constructor's
    arguments; validation is the model's own and shows here as a raise. *)
Definition ViewerModel_init (env : Env) (self : ref) (title : string)
    (ndisplay : Z) (order : option (list Z))
    (axis_labels : option (list string)) : M unit :=
  call env (EvViewerModelInit self title ndisplay order axis_labels) ;;
  o <- load self ;;
  match o with
  | Some (ViewerObj _ window) =>
      store self
        (ViewerObj (Some {| title := title; ndisplay := ndisplay;
                            order := order; axis_labels := axis_labels |})
                   window)
  | _ => raise (TypeError "self")
  end.

(** Modelled from the spec: the [QtViewer] constructor is absent from the
    sources at hand.  The spec's WindowHost wraps exactly one model by
    reference and owns an optional console (attached only inside an
    interactive host) and one worker pool. *)
Definition QtViewer (env : Env) (viewer : ref) : M ref :=
  call env (EvQtViewer viewer) ;;
  console <- (if has_console env
              then c <- alloc (ConsoleObj []) ;; ret (Some c)
              else ret None) ;;
  pool <- alloc (PoolObj []) ;;
  alloc (QtViewerObj viewer console pool).

(** Modelled from the spec: the [Window] constructor is absent from the
    sources at hand.  The spec has the window displayed immediately if [show]
    is true and otherwise left hidden until [show()] is called. *)
Definition Window (env : Env) (qt_viewer : ref) (show : bool) : M ref :=
  call env (EvWindow qt_viewer show) ;;
  alloc (WindowObj qt_viewer show).

(** Modelled from the spec: [Window.show] is absent from the sources at hand.
    The spec has the window made visible, and a second call leave it so. *)
Definition Window_show (env : Env) (window : ref) : M unit :=
  call env (EvWindowShow window) ;;
  o <- load window ;;
  match o with
  | Some (WindowObj qt_viewer _) => store window (WindowObj qt_viewer true)
  | _ => raise (AttributeError "show")
  end.

(** Modelled from the spec: [Window.close] is absent from the sources at hand.
    The spec has it request the teardown of the window. *)
Definition Window_close (env : Env) (window : ref) : M unit :=
  call env (EvWindowClose window) ;;
  o <- load window ;;
  match o with
  | Some (WindowObj qt_viewer _) => store window (WindowObj qt_viewer false)
  | _ => raise (AttributeError "close")
  end.

(** Modelled from the spec: the console's [push] is absent from the sources at
    hand.  The spec has the console consumed through a push of variables; the
    console object keeps what it was handed, in order. *)
Definition push (env : Env) (console : ref) (v : variables) : M unit :=
  call env (EvConsolePush console v) ;;
  o <- load console ;;
  match o with
  | Some (ConsoleObj pushed) => store console (ConsoleObj (pushed ++ [v]))
  | _ => raise (AttributeError "push")
  end.

(** Modelled from the spec: [QtUpdateUI] is absent from the sources at hand.
    The spec's background task record holds the callable reference and its
    positional and keyword arguments. *)
Definition QtUpdateUI (env : Env) (func : string) (args : list pyval)
    (kwargs : gmap string pyval) : M ref :=
  call env (EvQtUpdateUI func args kwargs) ;;
  alloc (TaskObj {| func := func; args := args; kwargs := kwargs |}).

(** [pool.start(t)]: the runnable joins the pool's queue. *)
Definition start (env : Env) (pool : ref) (t : ref) : M unit :=
  call env (EvPoolStart pool t) ;;
  o <- load pool ;;
  match o with
  | Some (PoolObj queue) => store pool (PoolObj (queue ++ [t]))
  | _ => raise (AttributeError "start")
  end.

(** The channels of a pixel as unsigned bytes. *)
Definition channels (p : rgba) : list Z :=
  [Z.of_N (Byte.to_N (red p)); Z.of_N (Byte.to_N (green p));
   Z.of_N (Byte.to_N (blue p)); Z.of_N (Byte.to_N (alpha p))].

(** Modelled from the spec: [Window.screenshot] and [QtViewer.screenshot] are
    absent from the sources at hand.  The spec has them return a dense buffer
    of 8-bit channels of shape (height, width, 4) whose index [0, 0] is the
    upper-left corner of the captured region. *)
Definition grab (s : surface) : ndarray :=
  {| shape := [height s; width s; 4%nat];
     elt := uint8;
     data := flat_map
               (fun i => flat_map (fun j => channels (pixel s i j))
                           (seq 0 (width s)))
               (seq 0 (height s)) |}.

(** Modelled from the spec: see [grab]; the whole window is captured. *)
Definition Window_screenshot (env : Env) (window : ref) (p : option string)
  : M ndarray :=
  call env (EvWindowScreenshot window p) ;;
  ret (grab (window_surface env)).

(** Modelled from the spec: see [grab]; only the canvas is captured. *)
Definition QtViewer_screenshot (env : Env) (qt_viewer : ref)
    (p : option string) : M ndarray :=
  call env (EvQtViewerScreenshot qt_viewer p) ;;
  ret (grab (canvas_surface env)).

(** [a[i, j, c]] for an array of three dimensions. *)
Definition item3 (a : ndarray) (i j c : nat) : option Z :=
  match shape a with
  | [h; w; d] =>
      if (i <? h)%nat && (j <? w)%nat && (c <? d)%nat
      then data a !! ((i * w + j) * d + c)%nat
      else None
  | _ => None
  end.

(** ** The Viewer class *)

Definition nl : string := String (Ascii.ascii_of_nat 10) EmptyString.

(** The text of the [RuntimeError] raised without an event loop. *)
Definition message : string :=
  "napari requires a Qt event loop to run. To create one, "
  +:+ "try one of the following: " +:+ nl
  +:+ "  - use the `napari.gui_qt()` context manager. See "
  +:+ "https://github.com/napari/napari/tree/master/examples for"
  +:+ " usage examples." +:+ nl
  +:+ "  - In IPython or a local Jupyter instance, use the "
  +:+ "`%gui qt` magic command." +:+ nl
  +:+ "  - Launch IPython with the option `--gui=qt`." +:+ nl
  +:+ "  - (recommended) in your IPython configuration file, add"
  +:+ " or uncomment the line `c.TerminalIPythonApp.gui = 'qt'`."
  +:+ " Then, restart IPython.".

(** The test of the [if] that guards the registration:
    [platform.system() == "Windows" and not getattr(sys, 'frozen', False)
     and self._napari_app_id], with the short circuit of [and]. *)
Definition registration_test (env : Env) : M bool :=
  sys <- platform_system env ;;
  if String.eqb sys "Windows" then
    fr <- getattr_sys_frozen env ;;
    if negb (truthy fr) then
      app_id <- read_napari_app_id env ;;
      ret (truthy app_id)
    else ret false
  else ret false.

Definition __init__ (env : Env) (self : ref) (title : string) (ndisplay : Z)
    (order : option (list Z)) (axis_labels : option (list string))
    (show : bool) : M unit :=
  app <- QApplication_instance ;;
  match app with
  | None => raise (RuntimeError message)
  | Some _ =>
      register <- registration_test env ;;
      (if register : bool then
         app_id <- read_napari_app_id env ;;
         SetCurrentProcessExplicitAppUserModelID env app_id ;;
         ret tt
       else ret tt) ;;
      icon <- QIcon env (logopath env) ;;
      setWindowIcon env icon ;;
      ViewerModel_init env self title ndisplay order axis_labels ;;
      qt_viewer <- QtViewer env self ;;
      window <- Window env qt_viewer show ;;
      set_window self window
  end.

(** [Viewer(...)]: a new instance, then [__init__] on it. *)
Definition Viewer (env : Env) (title : string) (ndisplay : Z)
    (order : option (list Z)) (axis_labels : option (list string))
    (show : bool) : M ref :=
  self <- alloc (ViewerObj None None) ;;
  __init__ env self title ndisplay order axis_labels show ;;
  ret self.

Definition update_console (env : Env) (self : ref) (v : variables) : M unit :=
  window <- get_window self ;;
  qt_viewer <- get_qt_viewer window ;;
  console <- get_console qt_viewer ;;
  match console with
  | None => ret tt
  | Some _ =>
      window <- get_window self ;;
      qt_viewer <- get_qt_viewer window ;;
      console <- get_console qt_viewer ;;
      match console with
      | Some c => push env c v
      | None => raise (AttributeError "push")
      end
  end.

Definition screenshot (env : Env) (self : ref) (p : option string)
    (with_viewer : bool) : M ndarray :=
  if with_viewer then
    window <- get_window self ;;
    Window_screenshot env window p
  else
    window <- get_window self ;;
    qt_viewer <- get_qt_viewer window ;;
    QtViewer_screenshot env qt_viewer p.

(** The signature is [update(self, func, *args, **kwargs)], and [self] and
    [func] are given by position: a keyword argument that bears one of these
    two names cannot be bound.  Python then raises [TypeError] before the
    body runs, naming the keyword; when both names are given it names the
    one that comes first in the call, an order that the mapping does not
    keep, and [func] is named here.  The text of the message is that of the
    interpreters of the time of this source; later ones put the name of the
    class before that of the method. *)
Definition collision (kwargs : gmap string pyval) : option string :=
  match kwargs !! "func", kwargs !! "self" with
  | Some _, _ => Some "func"
  | None, Some _ => Some "self"
  | None, None => None
  end.

Definition multiple_values (name : string) : exn :=
  TypeError ("update() got multiple values for argument '" +:+ name +:+ "'").

Definition update (env : Env) (self : ref) (func : string)
    (args : list pyval) (kwargs : gmap string pyval) : M ref :=
  match collision kwargs with
  | Some name => raise (multiple_values name)
  | None =>
      t <- QtUpdateUI env func args kwargs ;;
      window <- get_window self ;;
      qt_viewer <- get_qt_viewer window ;;
      pool <- get_pool qt_viewer ;;
      start env pool t ;;
      window <- get_window self ;;
      qt_viewer <- get_qt_viewer window ;;
      get_pool qt_viewer
  end.

Definition show (env : Env) (self : ref) : M unit :=
  window <- get_window self ;;
  Window_show env window.

Definition close (env : Env) (self : ref) : M unit :=
  window <- get_window self ;;
  Window_close env window.

(** ** The specification's reading of the registration test

    The specification lists the tests of the registration in an order of its
    own; that order is written out to be compared with the code's. *)

(** The identity that switches the registration off: [False]. *)
Definition disabled (app_id : pyval) : bool :=
  match app_id with
  | PyBool false => true
  | _ => false
  end.

(** The registration test in the order the specification lists it: the
    identity, then the packaging, then the platform. *)
Definition registration_test_spec (env : Env) : M bool :=
  app_id <- read_napari_app_id env ;;
  if disabled app_id then ret false
  else
    fr <- getattr_sys_frozen env ;;
    if truthy fr then ret false
    else
      sys <- platform_system env ;;
      ret (String.eqb sys "Windows").





(** ** Observations *)

(** The identities handed to the shell, in order. *)
Definition shell_calls (tr : list event) : list pyval :=
  omap (fun ev => match ev with
                  | EvSetCurrentProcessExplicitAppUserModelID app_id =>
                      Some app_id
                  | _ => None
                  end) tr.

(** The events of the registration step: its three queries and the call. *)
Definition is_registration_event (ev : event) : bool :=
  match ev with
  | EvPlatformSystem | EvGetattrSysFrozen | EvReadNapariAppId
  | EvSetCurrentProcessExplicitAppUserModelID _ => true
  | _ => false
  end.

(** [t in s] on strings. *)
Definition contains (s t : string) : bool :=
  match String.index 0 t s with
  | Some _ => true
  | None => false
  end.

(** The objects that a constructed viewer reaches: its window, the window's
    [qt_viewer], and that one's console (if any) and pool. *)
Record viewer_ok (w : World) (self window qt_viewer : ref)
    (console : option ref) (pool : ref) : Prop := {
  ok_self : exists m, heap w !! self = Some (ViewerObj m (Some window));
  ok_window : exists visible,
      heap w !! window = Some (WindowObj qt_viewer visible);
  ok_qt_viewer : heap w !! qt_viewer = Some (QtViewerObj self console pool);
  ok_pool : exists queue, heap w !! pool = Some (PoolObj queue);
  ok_console : forall c, console = Some c ->
      exists pushed, heap w !! c = Some (ConsoleObj pushed)
}.

(** No collaborator raises. *)
Definition quiet (env : Env) : Prop := forall ev, raises env ev = None.

(** What the registration step does in a given environment: the queries it
    makes, and the shell call if all three tests pass. *)
Definition registration_events (env : Env) : list event :=
  EvPlatformSystem ::
  (if String.eqb (system env) "Windows" then
     EvGetattrSysFrozen ::
     (if truthy (default (PyBool false) (frozen env)) then []
      else
        EvReadNapariAppId ::
        (if truthy (_napari_app_id env) then
           [EvReadNapariAppId;
            EvSetCurrentProcessExplicitAppUserModelID (_napari_app_id env)]
         else []))
   else []).

(** A computation whose calls all satisfy [P], however it ends. *)
Definition emits (P : event -> Prop) {A} (c : M A) : Prop :=
  forall w, exists rest,
    trace (snd (c w)) = trace w ++ rest /\ Forall P rest.

(** Not part of the registration step. *)
Definition later (ev : event) : Prop := is_registration_event ev = false.

(** ** Sample processes *)

Definition black : rgba :=
  {| red := Byte.x00; green := Byte.x00; blue := Byte.x00; alpha := Byte.xff |}.

Definition white : rgba :=
  {| red := Byte.xff; green := Byte.xff; blue := Byte.xff; alpha := Byte.xff |}.

(** A surface that is white in its upper-left corner and black elsewhere. *)
Definition corner (h w : nat) : surface :=
  {| height := h; width := w;
     pixel := fun i j => match i, j with
                         | O, O => white
                         | _, _ => black
                         end |}.

(** A Windows process running from source, inside an interactive host. *)
Definition windows_env : Env :=
  {| system := "Windows"; frozen := None;
     _napari_app_id := default_napari_app_id "0.2.12";
     __file__dirname := "napari";
     raises := fun _ => None; hresult := 0; has_console := true;
     window_surface := corner 3 4; canvas_surface := corner 2 3 |}.

(** The same, outside an interactive host: no console. *)
Definition script_env : Env :=
  {| system := "Windows"; frozen := None;
     _napari_app_id := default_napari_app_id "0.2.12";
     __file__dirname := "napari";
     raises := fun _ => None; hresult := 0; has_console := false;
     window_surface := corner 3 4; canvas_surface := corner 2 3 |}.

(** The same as [windows_env], with the shell call raising. *)
Definition shell_raises_env : Env :=
  {| system := "Windows"; frozen := None;
     _napari_app_id := default_napari_app_id "0.2.12";
     __file__dirname := "napari";
     raises := fun ev =>
       match ev with
       | EvSetCurrentProcessExplicitAppUserModelID _ =>
           Some (OSError "exception: access violation")
       | _ => None
       end;
     hresult := 0; has_console := true;
     window_surface := corner 3 4; canvas_surface := corner 2 3 |}.

(** The same as [windows_env], with the shell call returning E_FAIL. *)
Definition shell_fails_env : Env :=
  {| system := "Windows"; frozen := None;
     _napari_app_id := default_napari_app_id "0.2.12";
     __file__dirname := "napari";
     raises := fun _ => None; hresult := -2147467259; has_console := true;
     window_surface := corner 3 4; canvas_surface := corner 2 3 |}.

(** A Linux process whose identity is switched off. *)
Definition linux_disabled_env : Env :=
  {| system := "Linux"; frozen := None;
     _napari_app_id := PyBool false;
     __file__dirname := "napari";
     raises := fun _ => None; hresult := 0; has_console := true;
     window_surface := corner 3 4; canvas_surface := corner 2 3 |}.

(** A Windows process whose identity is the empty string. *)
Definition empty_id_env : Env :=
  {| system := "Windows"; frozen := None;
     _napari_app_id := PyStr "";
     __file__dirname := "napari";
     raises := fun _ => None; hresult := 0; has_console := true;
     window_surface := corner 3 4; canvas_surface := corner 2 3 |}.

(** A process with a running event loop, and one without. *)
Definition with_loop : World :=
  {| qapp := Some {| windowIcon := None |}; heap := []; trace := [] |}.

Definition without_loop : World :=
  {| qapp := None; heap := []; trace := [] |}.

(** The session that [Viewer()] opens in a process with a running loop. *)
Definition session (env : Env) : World :=
  snd (Viewer env "napari" 2 None None true with_loop).


(** ** Callers

    Loops that a user of the viewer writes around its methods. *)

(** [[viewer.update(j.func, *j.args, **j.kwargs) for j in jobs]] *)
Fixpoint update_each (env : Env) (self : ref) (jobs : list task)
  : M (list ref) :=
  match jobs with
  | [] => ret []
  | j :: jobs' =>
      p <- update env self (func j) (args j) (kwargs j) ;;
      ps <- update_each env self jobs' ;;
      ret (p :: ps)
  end.

(** [for v in vs: viewer.update_console(v)] *)
Fixpoint update_console_each (env : Env) (self : ref) (vs : list variables)
  : M unit :=
  match vs with
  | [] => ret tt
  | v :: vs' =>
      update_console env self v ;;
      update_console_each env self vs'
  end.

(** An invariant of the process that a computation keeps, however it
    ends. *)
Definition keeps (J : World -> Prop) {A} (c : M A) : Prop :=
  forall w, J w -> J (snd (c w)).

(** A process in which two viewers have been opened, one after the other. *)
Definition two_sessions : World :=
  snd (Viewer windows_env "second" 2 None None true (session windows_env)).

(** A computation that only reads: it leaves the process as it found it. *)
Definition reads {A} (c : M A) : Prop := forall w, snd (c w) = w.




(** The same as [windows_env], with the captures raising. *)
Definition capture_raises_env : Env :=
  {| system := "Windows"; frozen := None;
     _napari_app_id := default_napari_app_id "0.2.12";
     __file__dirname := "napari";
     raises := fun ev =>
       match ev with
       | EvWindowScreenshot _ _ | EvQtViewerScreenshot _ _ =>
           Some (OSError "cannot write file")
       | _ => None
       end;
     hresult := 0; has_console := true;
     window_surface := corner 3 4; canvas_surface := corner 2 3 |}.

(** ** The monad's equations *)

Lemma bind_ok {A B} (c : M A) (k : A -> M B) w a w1 :
  c w = (Ok a, w1) -> bind c k w = k a w1.
Proof. intros H. unfold bind. rewrite H. reflexivity. Qed.

Lemma bind_raise {A B} (c : M A) (k : A -> M B) w e w1 :
  c w = (Raise e, w1) -> bind c k w = (Raise e, w1).
Proof. intros H. unfold bind. rewrite H. reflexivity. Qed.

Lemma bind_inv_ok {A B} (c : M A) (k : A -> M B) w b w' :
  bind c k w = (Ok b, w') ->
  exists a w1, c w = (Ok a, w1) /\ k a w1 = (Ok b, w').
Proof.
  unfold bind. destruct (c w) as [[a | e] w1]; intros H.
  - exists a, w1. split; [reflexivity | exact H].
  - discriminate H.
Qed.

Lemma call_ok env ev w :
  raises env ev = None -> call env ev w = (Ok tt, logged ev w).
Proof. intros H. unfold call, bind, log. rewrite H. reflexivity. Qed.

Lemma call_raise env ev e w :
  raises env ev = Some e -> call env ev w = (Raise e, logged ev w).
Proof. intros H. unfold call, bind, log. rewrite H. reflexivity. Qed.

Lemma call_inv_ok env ev w u w1 :
  call env ev w = (Ok u, w1) -> raises env ev = None /\ w1 = logged ev w.
Proof.
  unfold call, bind, log. destruct (raises env ev); cbn; intros H.
  - discriminate H.
  - injection H as _ <-. split; reflexivity.
Qed.

(** ** Attribute chains on a constructed viewer *)

Section Chains.
Context {w : World} {self window qt_viewer : ref} {console : option ref}
  {pool : ref}.
Hypothesis ok : viewer_ok w self window qt_viewer console pool.

Lemma get_window_ok : get_window self w = (Ok window, w).
Proof.
  destruct (ok_self _ _ _ _ _ _ ok) as [m Hm].
  unfold get_window, bind, load. rewrite Hm. reflexivity.
Qed.

Lemma get_qt_viewer_ok : get_qt_viewer window w = (Ok qt_viewer, w).
Proof.
  destruct (ok_window _ _ _ _ _ _ ok) as [v Hv].
  unfold get_qt_viewer, bind, load. rewrite Hv. reflexivity.
Qed.

Lemma get_console_ok : get_console qt_viewer w = (Ok console, w).
Proof.
  unfold get_console, bind, load.
  rewrite (ok_qt_viewer _ _ _ _ _ _ ok). reflexivity.
Qed.

Lemma get_pool_ok : get_pool qt_viewer w = (Ok pool, w).
Proof.
  unfold get_pool, bind, load.
  rewrite (ok_qt_viewer _ _ _ _ _ _ ok). reflexivity.
Qed.
End Chains.

(** ** The event-loop guard *)

(** C1: without a running event loop, [__init__] raises the [RuntimeError]
    whose message lists the four ways to start a loop, and it has done
    nothing but ask for the application instance: the heap is as it was, and
    the trace has gained that one query, so no registration, icon, model or
    window was made.  The class call [Viewer(...)] fails the same way, having
    only allocated the blank instance that [__init__] received. *)
Theorem C1_no_event_loop env self title ndisplay order axis_labels show w :
  qapp w = None ->
  __init__ env self title ndisplay order axis_labels show w
    = (Raise (RuntimeError message), logged EvQApplicationInstance w)
  /\ Viewer env title ndisplay order axis_labels show w
    = (Raise (RuntimeError message),
       logged EvQApplicationInstance
         (with_heap (heap w ++ [ViewerObj None None]) w))
  /\ contains message "napari.gui_qt()" = true
  /\ contains message "%gui qt" = true
  /\ contains message "--gui=qt" = true
  /\ contains message "c.TerminalIPythonApp.gui = 'qt'" = true.
Proof.
  intros Hno.
  assert (Hinit : forall s w0, qapp w0 = None ->
            __init__ env s title ndisplay order axis_labels show w0
            = (Raise (RuntimeError message), logged EvQApplicationInstance w0)).
  { intros s w0 H0. unfold __init__, QApplication_instance, bind, log.
    cbn. rewrite H0. reflexivity. }
  split; [apply Hinit; exact Hno |].
  split.
  - unfold Viewer.
    rewrite (bind_ok (alloc (ViewerObj None None)) _ w _ _ eq_refl).
    apply bind_raise, Hinit. exact Hno.
  - repeat split; vm_compute; reflexivity.
Qed.

Lemma C1_no_event_loop_witness :
  qapp without_loop = None
  /\ fst (__init__ windows_env 0%nat "napari" 2 None None true without_loop)
     = Raise (RuntimeError message)
  /\ trace (snd (__init__ windows_env 0%nat "napari" 2 None None true
                   without_loop))
     = [EvQApplicationInstance].
Proof.
  split; [reflexivity |].
  destruct (C1_no_event_loop windows_env 0%nat "napari" 2 None None true
              without_loop eq_refl) as [H _].
  rewrite H. split; reflexivity.
Defined.

(** ** Injecting variables into the console *)

Lemma push_ok env c v w pushed :
  heap w !! c = Some (ConsoleObj pushed) ->
  raises env (EvConsolePush c v) = None ->
  push env c v w
  = (Ok tt, with_heap (<[c := ConsoleObj (pushed ++ [v])]> (heap w))
              (logged (EvConsolePush c v) w)).
Proof.
  intros Hc Hr. unfold push.
  rewrite (bind_ok _ _ _ _ _ (call_ok _ _ _ Hr)).
  unfold bind, load. cbn. rewrite Hc. reflexivity.
Qed.

Lemma update_console_detached env self v w window qt_viewer pool :
  viewer_ok w self window qt_viewer None pool ->
  update_console env self v w = (Ok tt, w).
Proof.
  intros ok. unfold update_console.
  rewrite (bind_ok _ _ _ _ _ (get_window_ok ok)).
  rewrite (bind_ok _ _ _ _ _ (get_qt_viewer_ok ok)).
  rewrite (bind_ok _ _ _ _ _ (get_console_ok ok)).
  reflexivity.
Qed.

Lemma update_console_attached env self v w window qt_viewer c pool pushed :
  viewer_ok w self window qt_viewer (Some c) pool ->
  heap w !! c = Some (ConsoleObj pushed) ->
  raises env (EvConsolePush c v) = None ->
  update_console env self v w
  = (Ok tt, with_heap (<[c := ConsoleObj (pushed ++ [v])]> (heap w))
              (logged (EvConsolePush c v) w)).
Proof.
  intros ok Hc Hr. unfold update_console.
  rewrite (bind_ok _ _ _ _ _ (get_window_ok ok)).
  rewrite (bind_ok _ _ _ _ _ (get_qt_viewer_ok ok)).
  rewrite (bind_ok _ _ _ _ _ (get_console_ok ok)).
  rewrite (bind_ok _ _ _ _ _ (get_window_ok ok)).
  rewrite (bind_ok _ _ _ _ _ (get_qt_viewer_ok ok)).
  rewrite (bind_ok _ _ _ _ _ (get_console_ok ok)).
  apply push_ok; assumption.
Qed.

Lemma session_windows_ok :
  viewer_ok (session windows_env) 0%nat 4%nat 3%nat (Some 1%nat) 2%nat.
Proof.
  split.
  - eexists. reflexivity.
  - eexists. reflexivity.
  - reflexivity.
  - eexists. reflexivity.
  - intros c [= <-]. eexists. reflexivity.
Qed.

Lemma session_script_ok :
  viewer_ok (session script_env) 0%nat 3%nat 2%nat None 1%nat.
Proof.
  split.
  - eexists. reflexivity.
  - eexists. reflexivity.
  - reflexivity.
  - eexists. reflexivity.
  - intros c [=].
Qed.

(** C7: with no console attached [update_console] returns normally and leaves
    the process exactly as it was (same heap, same trace); with a console
    attached it hands [variables] to the console's [push], once, and the
    console holds them. *)
Theorem C7_update_console env self v w window qt_viewer console pool :
  viewer_ok w self window qt_viewer console pool ->
  (console = None -> update_console env self v w = (Ok tt, w))
  /\ (forall c pushed,
        console = Some c ->
        heap w !! c = Some (ConsoleObj pushed) ->
        raises env (EvConsolePush c v) = None ->
        update_console env self v w
        = (Ok tt, with_heap (<[c := ConsoleObj (pushed ++ [v])]> (heap w))
                    (logged (EvConsolePush c v) w))).
Proof.
  intros ok. split.
  - intros ->. eapply update_console_detached. exact ok.
  - intros c pushed -> Hc Hr. eapply update_console_attached; eassumption.
Qed.

Lemma C7_update_console_witness :
  update_console script_env 0%nat (VarDict {[ "x" := PyInt 5 ]})
    (session script_env)
  = (Ok tt, session script_env)
  /\ heap (snd (update_console windows_env 0%nat
                  (VarDict {[ "x" := PyInt 5 ]}) (session windows_env)))
       !! 1%nat
     = Some (ConsoleObj [VarDict {[ "x" := PyInt 5 ]}]).
Proof.
  split.
  - apply (C7_update_console script_env 0%nat _ _ _ _ _ _ session_script_ok).
    reflexivity.
  - destruct (C7_update_console windows_env 0%nat
                (VarDict {[ "x" := PyInt 5 ]}) _ _ _ _ _ session_windows_ok)
      as [_ H].
    rewrite (H 1%nat [] eq_refl eq_refl eq_refl). reflexivity.
Defined.





(** C9: whatever [update_console] is given and however it ends, the
    application singleton is untouched, no object is created, and every heap
    object is as it was, except that the attached console may have received
    [variables], unchanged, as its latest push: in particular the viewer, its
    window and the window's [qt_viewer] keep all their fields.  The trace
    gains nothing, or the one call [console.push(variables)]. *)
Theorem C9_update_console_frame env self v w :
  qapp (snd (update_console env self v w)) = qapp w
  /\ length (heap (snd (update_console env self v w))) = length (heap w)
  /\ (forall r,
        heap (snd (update_console env self v w)) !! r = heap w !! r
        \/ exists pushed,
             heap w !! r = Some (ConsoleObj pushed)
             /\ heap (snd (update_console env self v w)) !! r
                = Some (ConsoleObj (pushed ++ [v])))
  /\ (trace (snd (update_console env self v w)) = trace w
      \/ exists c,
           trace (snd (update_console env self v w))
           = trace w ++ [EvConsolePush c v]).
Proof.
  unfold update_console, get_window, get_qt_viewer, get_console, push, call,
    bind, load, store, log, ret, raise.
  destruct (heap w !! self) as [[m [window |] | | | | |] |] eqn:Hs;
    cbn; try (repeat split; auto; fail).
  destruct (heap w !! window) as [[| | qt_viewer vis | | |] |] eqn:Hw;
    cbn; try (repeat split; auto; fail).
  destruct (heap w !! qt_viewer) as [[| viewer [c |] pool | | | |] |] eqn:Hq;
    cbn; try (repeat split; auto; fail).
  rewrite Hs; cbn. rewrite Hw; cbn. rewrite Hq; cbn.
  destruct (raises env (EvConsolePush c v)); cbn.
  { repeat split; eauto. }
  destruct (heap w !! c) as [[| | | pushed | |] |] eqn:Hc;
    cbn; try (repeat split; eauto; fail).
  split; [reflexivity |].
  split; [apply length_insert |].
  split; [| eauto].
  intros r. destruct (decide (r = c)) as [-> | Hne].
  - right. exists pushed. split; [exact Hc |].
    apply list_lookup_insert_eq. eapply lookup_lt_Some. exact Hc.
  - left. apply list_lookup_insert_ne. congruence.
Qed.

(** ** Submitting background work *)

(** A viewer stays constructed when the trace grows, when an object is
    allocated, and when its pool's queue is replaced. *)
Lemma viewer_ok_logged ev w self window qt_viewer console pool :
  viewer_ok w self window qt_viewer console pool ->
  viewer_ok (logged ev w) self window qt_viewer console pool.
Proof. intros [H1 H2 H3 H4 H5]. split; assumption. Qed.

Lemma viewer_ok_alloc o w self window qt_viewer console pool :
  viewer_ok w self window qt_viewer console pool ->
  viewer_ok (with_heap (heap w ++ [o]) w) self window qt_viewer console pool.
Proof.
  intros [[m H1] [vis H2] H3 [q H4] H5]. split; cbn.
  - exists m. apply lookup_app_l_Some, H1.
  - exists vis. apply lookup_app_l_Some, H2.
  - apply lookup_app_l_Some, H3.
  - exists q. apply lookup_app_l_Some, H4.
  - intros c Hc. destruct (H5 c Hc) as [l Hl].
    exists l. apply lookup_app_l_Some, Hl.
Qed.

Lemma viewer_ok_queue queue w self window qt_viewer console pool :
  viewer_ok w self window qt_viewer console pool ->
  viewer_ok (with_heap (<[pool := PoolObj queue]> (heap w)) w)
    self window qt_viewer console pool.
Proof.
  intros [[m H1] [vis H2] H3 [q H4] H5]. split; cbn.
  - exists m. rewrite list_lookup_insert_ne; [exact H1 | congruence].
  - exists vis. rewrite list_lookup_insert_ne; [exact H2 | congruence].
  - rewrite list_lookup_insert_ne; [exact H3 | congruence].
  - exists queue. apply list_lookup_insert_eq. eapply lookup_lt_Some, H4.
  - intros c Hc. destruct (H5 c Hc) as [l Hl].
    exists l. rewrite list_lookup_insert_ne; [exact Hl | congruence].
Qed.

Lemma QtUpdateUI_ok env f a k w :
  raises env (EvQtUpdateUI f a k) = None ->
  QtUpdateUI env f a k w
  = (Ok (length (heap w)),
     with_heap (heap w ++ [TaskObj {| func := f; args := a; kwargs := k |}])
       (logged (EvQtUpdateUI f a k) w)).
Proof.
  intros Hr. unfold QtUpdateUI.
  rewrite (bind_ok _ _ _ _ _ (call_ok _ _ _ Hr)). reflexivity.
Qed.

Lemma start_ok env pool t w queue :
  heap w !! pool = Some (PoolObj queue) ->
  raises env (EvPoolStart pool t) = None ->
  start env pool t w
  = (Ok tt, with_heap (<[pool := PoolObj (queue ++ [t])]> (heap w))
              (logged (EvPoolStart pool t) w)).
Proof.
  intros Hp Hr. unfold start.
  rewrite (bind_ok _ _ _ _ _ (call_ok _ _ _ Hr)).
  unfold bind, load. cbn. rewrite Hp. reflexivity.
Qed.

(** The world after a successful [update]. *)
Lemma update_ok env self f a k w window qt_viewer console pool queue :
  viewer_ok w self window qt_viewer console pool ->
  heap w !! pool = Some (PoolObj queue) ->
  raises env (EvQtUpdateUI f a k) = None ->
  raises env (EvPoolStart pool (length (heap w))) = None ->
  collision k = None ->
  update env self f a k w
  = (Ok pool,
     {| qapp := qapp w;
        heap := <[pool := PoolObj (queue ++ [length (heap w)])]>
                  (heap w
                   ++ [TaskObj {| func := f; args := a; kwargs := k |}]);
        trace := trace w ++ [EvQtUpdateUI f a k;
                             EvPoolStart pool (length (heap w))] |}).
Proof.
  intros ok Hp Hr1 Hr2 Hk. unfold update. rewrite Hk.
  rewrite (bind_ok _ _ _ _ _ (QtUpdateUI_ok _ _ _ _ _ Hr1)).
  pose proof (viewer_ok_alloc
                (TaskObj {| func := f; args := a; kwargs := k |}) _ _ _ _ _ _
                (viewer_ok_logged (EvQtUpdateUI f a k) _ _ _ _ _ _ ok)) as ok1.
  rewrite (bind_ok _ _ _ _ _ (get_window_ok ok1)).
  rewrite (bind_ok _ _ _ _ _ (get_qt_viewer_ok ok1)).
  rewrite (bind_ok _ _ _ _ _ (get_pool_ok ok1)).
  erewrite (bind_ok (start env pool _)); cycle 1.
  { apply start_ok with (queue := queue); cbn.
    - apply lookup_app_l_Some, Hp.
    - exact Hr2. }
  pose proof (viewer_ok_logged (EvPoolStart pool (length (heap w))) _ _ _ _ _ _
                (viewer_ok_queue (queue ++ [length (heap w)]) _ _ _ _ _ _ ok1))
    as ok2.
  cbn in ok2.
  rewrite (bind_ok _ _ _ _ _ (get_window_ok ok2)).
  rewrite (bind_ok _ _ _ _ _ (get_qt_viewer_ok ok2)).
  rewrite (get_pool_ok ok2).
  unfold logged, with_heap. cbn. rewrite <- app_assoc. reflexivity.
Qed.

(** After a successful [update] the viewer is still constructed, on the same
    objects. *)
Lemma update_keeps_ok env self f a k w window qt_viewer console pool queue :
  viewer_ok w self window qt_viewer console pool ->
  heap w !! pool = Some (PoolObj queue) ->
  raises env (EvQtUpdateUI f a k) = None ->
  raises env (EvPoolStart pool (length (heap w))) = None ->
  collision k = None ->
  viewer_ok (snd (update env self f a k w)) self window qt_viewer console pool.
Proof.
  intros ok Hp Hr1 Hr2 Hk.
  rewrite (update_ok _ _ _ _ _ _ _ _ _ _ _ ok Hp Hr1 Hr2 Hk). cbn.
  pose proof (viewer_ok_queue (queue ++ [length (heap w)]) _ _ _ _ _ _
                (viewer_ok_alloc
                   (TaskObj {| func := f; args := a; kwargs := k |})
                   _ _ _ _ _ _ ok)) as [H1 H2 H3 H4 H5].
  split; assumption.
Qed.

(** An [update] that returns had its arguments bound and no collaborator
    raise. *)
Lemma update_inv env self f a k w window qt_viewer console pool p w1 :
  viewer_ok w self window qt_viewer console pool ->
  update env self f a k w = (Ok p, w1) ->
  raises env (EvQtUpdateUI f a k) = None
  /\ raises env (EvPoolStart pool (length (heap w))) = None
  /\ collision k = None.
Proof.
  intros ok H. unfold update in H.
  destruct (collision k) as [name |] eqn:Hk; [discriminate H |].
  destruct (raises env (EvQtUpdateUI f a k)) as [e |] eqn:Hr1.
  { unfold QtUpdateUI in H.
    rewrite (bind_raise _ _ _ e (logged (EvQtUpdateUI f a k) w)) in H.
    - discriminate H.
    - apply bind_raise, call_raise, Hr1. }
  split; [reflexivity |].
  destruct (raises env (EvPoolStart pool (length (heap w)))) as [e |] eqn:Hr2;
    [| split; reflexivity].
  rewrite (bind_ok _ _ _ _ _ (QtUpdateUI_ok _ _ _ _ _ Hr1)) in H.
  pose proof (viewer_ok_alloc
                (TaskObj {| func := f; args := a; kwargs := k |}) _ _ _ _ _ _
                (viewer_ok_logged (EvQtUpdateUI f a k) _ _ _ _ _ _ ok)) as ok1.
  rewrite (bind_ok _ _ _ _ _ (get_window_ok ok1)) in H.
  rewrite (bind_ok _ _ _ _ _ (get_qt_viewer_ok ok1)) in H.
  rewrite (bind_ok _ _ _ _ _ (get_pool_ok ok1)) in H.
  erewrite (bind_raise (start env pool _)) in H.
  - discriminate H.
  - unfold start. apply bind_raise, call_raise. exact Hr2.
Qed.




(** C10: on a constructed viewer, two calls of [update] in a row, whatever
    they submit, return the same reference, the pool of the window's
    [qt_viewer]: whenever both calls return, and they do return when no
    collaborator raises and no keyword argument is named [func] or
    [self]. *)
Theorem C10_same_pool env self w window qt_viewer console pool
    f1 a1 k1 f2 a2 k2 :
  viewer_ok w self window qt_viewer console pool ->
  (forall p1 w1 p2 w2,
      update env self f1 a1 k1 w = (Ok p1, w1) ->
      update env self f2 a2 k2 w1 = (Ok p2, w2) ->
      p1 = pool /\ p2 = pool)
  /\ (quiet env ->
      collision k1 = None ->
      collision k2 = None ->
      exists w1 w2,
        update env self f1 a1 k1 w = (Ok pool, w1)
        /\ update env self f2 a2 k2 w1 = (Ok pool, w2)).
Proof.
  intros ok. destruct (ok_pool _ _ _ _ _ _ ok) as [queue Hq].
  assert (Hstep : forall f a k w0 queue0,
            viewer_ok w0 self window qt_viewer console pool ->
            heap w0 !! pool = Some (PoolObj queue0) ->
            raises env (EvQtUpdateUI f a k) = None ->
            raises env (EvPoolStart pool (length (heap w0))) = None ->
            collision k = None ->
            exists w1 queue1,
              update env self f a k w0 = (Ok pool, w1)
              /\ viewer_ok w1 self window qt_viewer console pool
              /\ heap w1 !! pool = Some (PoolObj queue1)).
  { intros f a k w0 queue0 ok0 Hq0 Hr1 Hr2 Hk.
    pose proof (update_keeps_ok _ _ _ _ _ _ _ _ _ _ _ ok0 Hq0 Hr1 Hr2 Hk)
      as ok1.
    rewrite (update_ok _ _ _ _ _ _ _ _ _ _ _ ok0 Hq0 Hr1 Hr2 Hk) in ok1 |- *.
    eexists. exists (queue0 ++ [length (heap w0)]).
    split; [reflexivity |]. split; [exact ok1 |].
    cbn. apply list_lookup_insert_eq. rewrite length_app. cbn.
    pose proof (lookup_lt_Some _ _ _ Hq0). lia. }
  split.
  - intros p1 w1 p2 w2 H1 H2.
    destruct (update_inv _ _ _ _ _ _ _ _ _ _ _ _ ok H1) as (Hr1 & Hr2 & Hk1).
    destruct (Hstep _ _ _ _ _ ok Hq Hr1 Hr2 Hk1)
      as (w1' & q1 & E1 & ok1 & Hq1).
    rewrite E1 in H1. injection H1 as <- <-.
    destruct (update_inv _ _ _ _ _ _ _ _ _ _ _ _ ok1 H2) as (Hr3 & Hr4 & Hk2).
    destruct (Hstep _ _ _ _ _ ok1 Hq1 Hr3 Hr4 Hk2) as (w2' & q2 & E2 & _ & _).
    rewrite E2 in H2. injection H2 as <- <-.
    split; reflexivity.
  - intros Hquiet Hk1 Hk2.
    destruct (Hstep f1 a1 k1 _ _ ok Hq (Hquiet _) (Hquiet _) Hk1)
      as (w1 & q1 & E1 & ok1 & Hq1).
    destruct (Hstep f2 a2 k2 _ _ ok1 Hq1 (Hquiet _) (Hquiet _) Hk2)
      as (w2 & q2 & E2 & _ & _).
    exists w1, w2. split; assumption.
Qed.

Lemma C10_same_pool_witness :
  exists w1 w2,
    update windows_env 0%nat "refresh" [] ∅ (session windows_env)
    = (Ok 2%nat, w1)
    /\ update windows_env 0%nat "load" [PyStr "a.tif"] ∅ w1 = (Ok 2%nat, w2).
Proof.
  destruct (C10_same_pool windows_env 0%nat (session windows_env) 4%nat 3%nat
              (Some 1%nat) 2%nat "refresh" [] ∅ "load" [PyStr "a.tif"] ∅
              session_windows_ok) as [_ H].
  apply H; [intros ev |..]; reflexivity.
Defined.

(** ** Screenshots *)

(** Blocks of equal length laid end to end. *)
Lemma length_flat_map_seq {A} (f : nat -> list A) (k : nat) :
  (forall i, length (f i) = k) ->
  forall n s, length (flat_map f (seq s n)) = (n * k)%nat.
Proof.
  intros Hk n. induction n as [| n IH]; intros s; cbn.
  - reflexivity.
  - rewrite length_app, Hk, IH. reflexivity.
Qed.

Lemma lookup_flat_map_seq {A} (f : nat -> list A) (k : nat) :
  (forall i, length (f i) = k) ->
  forall n s i c,
    (i < n)%nat -> (c < k)%nat ->
    flat_map f (seq s n) !! (i * k + c)%nat = f (s + i)%nat !! c.
Proof.
  intros Hk n. induction n as [| n IH]; intros s i c Hi Hc; [lia |].
  cbn [seq flat_map]. destruct i as [| i].
  - rewrite lookup_app_l by (rewrite Hk; exact Hc).
    rewrite Nat.add_0_r. reflexivity.
  - rewrite lookup_app_r by (rewrite Hk; lia).
    rewrite Hk.
    replace (S i * k + c - k)%nat with (i * k + c)%nat by lia.
    rewrite IH by lia. f_equal. f_equal. lia.
Qed.

Lemma channels_length p : length (channels p) = 4%nat.
Proof. reflexivity. Qed.

Lemma channels_range p : Forall (fun x => 0 <= x < 256) (channels p).
Proof.
  assert (H : forall b, 0 <= Z.of_N (Byte.to_N b) < 256).
  { intros b. pose proof (Byte.to_N_bounded b). lia. }
  unfold channels. repeat constructor; apply H.
Qed.

Lemma grab_length s :
  length (data (grab s)) = (height s * width s * 4)%nat.
Proof.
  cbn. rewrite (length_flat_map_seq _ (width s * 4)); [lia |].
  intros i. apply length_flat_map_seq. intros j. apply channels_length.
Qed.

Lemma grab_range s : Forall (fun x => 0 <= x < 256) (data (grab s)).
Proof.
  cbn. apply List.Forall_flat_map, List.Forall_forall. intros i _.
  apply List.Forall_flat_map, List.Forall_forall. intros j _.
  apply channels_range.
Qed.

Lemma grab_item3 s i j c :
  (i < height s)%nat -> (j < width s)%nat -> (c < 4)%nat ->
  item3 (grab s) i j c = channels (pixel s i j) !! c.
Proof.
  intros Hi Hj Hc. unfold item3. cbn [shape grab data].
  assert (Hin : (i <? height s)%nat && (j <? width s)%nat && (c <? 4)%nat
                = true).
  { rewrite !andb_true_iff, !Nat.ltb_lt. auto. }
  rewrite Hin.
  replace ((i * width s + j) * 4 + c)%nat
    with (i * (width s * 4) + (j * 4 + c))%nat by lia.
  rewrite (lookup_flat_map_seq _ (width s * 4)); [| | exact Hi | lia].
  - rewrite (lookup_flat_map_seq _ 4);
      [reflexivity | intros; apply channels_length | exact Hj | exact Hc].
  - intros r. apply length_flat_map_seq. intros q. apply channels_length.
Qed.

(** C6: [screenshot] asks the window for its picture when [with_viewer] is
    true and the window's [qt_viewer] (the canvas) otherwise, and returns
    what it is given.  With those two captures as the specification describes
    them, the result has shape (height, width, 4) and element type uint8,
    holds height * width * 4 elements, each between 0 and 255, and its
    element [i, j, c] is channel [c] of the pixel in row [i] from the top and
    column [j] from the left of the captured region, so that index [0, 0] is
    the upper-left corner. *)
Theorem C6_screenshot (env : Env) self p (with_viewer : bool) w window
    qt_viewer console pool :
  viewer_ok w self window qt_viewer console pool ->
  raises env (EvWindowScreenshot window p) = None ->
  raises env (EvQtViewerScreenshot qt_viewer p) = None ->
  let region :=
    if with_viewer then window_surface env else canvas_surface env in
  let ev :=
    if with_viewer then EvWindowScreenshot window p
    else EvQtViewerScreenshot qt_viewer p in
  exists image,
    screenshot env self p with_viewer w = (Ok image, logged ev w)
    /\ shape image = [height region; width region; 4%nat]
    /\ elt image = uint8
    /\ length (data image) = (height region * width region * 4)%nat
    /\ Forall (fun x => 0 <= x < 256) (data image)
    /\ (forall i j c,
          (i < height region)%nat -> (j < width region)%nat -> (c < 4)%nat ->
          item3 image i j c = channels (pixel region i j) !! c).
Proof.
  intros ok Hrw Hrq region ev.
  exists (grab region). split.
  - unfold screenshot, region, ev. destruct with_viewer.
    + rewrite (bind_ok _ _ _ _ _ (get_window_ok ok)).
      unfold Window_screenshot.
      rewrite (bind_ok _ _ _ _ _ (call_ok _ _ _ Hrw)). reflexivity.
    + rewrite (bind_ok _ _ _ _ _ (get_window_ok ok)).
      rewrite (bind_ok _ _ _ _ _ (get_qt_viewer_ok ok)).
      unfold QtViewer_screenshot.
      rewrite (bind_ok _ _ _ _ _ (call_ok _ _ _ Hrq)). reflexivity.
  - split; [reflexivity |]. split; [reflexivity |].
    split; [apply grab_length |]. split; [apply grab_range |].
    intros i j c. apply grab_item3.
Qed.

Lemma C6_screenshot_witness :
  exists image,
    screenshot windows_env 0%nat None false (session windows_env)
    = (Ok image,
       logged (EvQtViewerScreenshot 3%nat None) (session windows_env))
    /\ shape image = [2; 3; 4]%nat
    /\ item3 image 0 0 0 = Some 255
    /\ item3 image 0 1 0 = Some 0.
Proof.
  destruct (C6_screenshot windows_env 0%nat None false (session windows_env)
              4%nat 3%nat (Some 1%nat) 2%nat session_windows_ok
              eq_refl eq_refl)
    as (image & Hs & Hshape & _ & _ & _ & Hitem).
  exists image. split; [exact Hs |]. split; [exact Hshape |].
  split.
  - rewrite (Hitem 0 0 0)%nat; [reflexivity | cbn; lia ..].
  - rewrite (Hitem 0 1 0)%nat; [reflexivity | cbn; lia ..].
Defined.

(** ** What a computation may emit *)

Section Emits.
Context (P : event -> Prop).

Lemma emits_ret {A} (a : A) : emits P (ret a).
Proof.
  intros w. exists []. rewrite app_nil_r.
  split; [reflexivity | constructor].
Qed.

Lemma emits_raise {A} e : emits P (@raise A e).
Proof.
  intros w. exists []. rewrite app_nil_r.
  split; [reflexivity | constructor].
Qed.

Lemma emits_bind {A B} (c : M A) (k : A -> M B) :
  emits P c -> (forall a, emits P (k a)) -> emits P (bind c k).
Proof.
  intros Hc Hk w. unfold bind.
  destruct (Hc w) as (r1 & E1 & F1).
  destruct (c w) as [[a | e] w1]; cbn in E1.
  - destruct (Hk a w1) as (r2 & E2 & F2).
    exists (r1 ++ r2). rewrite E2, E1, app_assoc.
    split; [reflexivity | apply Forall_app; split; assumption].
  - exists r1. split; assumption.
Qed.

Lemma emits_call env ev : P ev -> emits P (call env ev).
Proof.
  intros HP w. exists [ev]. split; [| repeat constructor; exact HP].
  unfold call, bind, log. destruct (raises env ev); reflexivity.
Qed.

Lemma emits_alloc o : emits P (alloc o).
Proof.
  intros w. exists []. rewrite app_nil_r.
  split; [reflexivity | constructor].
Qed.

Lemma emits_load r : emits P (load r).
Proof.
  intros w. exists []. rewrite app_nil_r.
  split; [reflexivity | constructor].
Qed.

Lemma emits_store r o : emits P (store r o).
Proof.
  intros w. exists []. rewrite app_nil_r.
  split; [reflexivity | constructor].
Qed.
End Emits.

Ltac emits_step :=
  first
    [ apply emits_ret | apply emits_raise | apply emits_alloc
    | apply emits_load | apply emits_store
    | apply emits_call; reflexivity
    | apply emits_bind; [| intros ?]
    | match goal with
      | |- emits _ (match ?x with _ => _ end) => destruct x
      end ].

(** ** Construction *)

Lemma emits_setWindowIcon env icon : emits later (setWindowIcon env icon).
Proof.
  unfold setWindowIcon. apply emits_bind; [apply emits_call; reflexivity |].
  intros _ w. exists []. rewrite app_nil_r. split; [reflexivity | constructor].
Qed.

(** From the icon on, nothing belongs to the registration step. *)
Lemma init_tail_later env self title ndisplay order axis_labels show :
  emits later
    (icon <- QIcon env (logopath env) ;;
     setWindowIcon env icon ;;
     ViewerModel_init env self title ndisplay order axis_labels ;;
     qt_viewer <- QtViewer env self ;;
     window <- Window env qt_viewer show ;;
     set_window self window).
Proof.
  apply emits_bind; [unfold QIcon; repeat emits_step |]. intros icon.
  apply emits_bind; [apply emits_setWindowIcon |]. intros _.
  unfold ViewerModel_init, QtViewer, Window, set_window.
  repeat emits_step.
Qed.

Lemma shell_calls_app tr1 tr2 :
  shell_calls (tr1 ++ tr2) = shell_calls tr1 ++ shell_calls tr2.
Proof. apply omap_app. Qed.

Lemma shell_calls_later rest : Forall later rest -> shell_calls rest = [].
Proof.
  induction 1 as [| ev rest Hev _ IH]; [reflexivity |].
  unfold shell_calls in *. cbn. rewrite IH.
  destruct ev; try reflexivity. discriminate Hev.
Qed.

(** The trace of a construction in a process with an event loop: the guard's
    query, the registration step, then events that are not of that step. *)
Lemma init_trace env self title ndisplay order axis_labels show w a :
  qapp w = Some a ->
  exists rest,
    trace (snd (__init__ env self title ndisplay order axis_labels show w))
    = trace w ++ [EvQApplicationInstance] ++ registration_events env ++ rest
    /\ Forall later rest.
Proof.
  intros Hq. unfold __init__.
  rewrite (bind_ok QApplication_instance _ w (Some a)
             (logged EvQApplicationInstance w))
    by (unfold QApplication_instance, bind, log; cbn; rewrite Hq; reflexivity).
  pose proof (init_tail_later env self title ndisplay order axis_labels show)
    as Htail.
  revert Htail.
  generalize (icon <- QIcon env (logopath env) ;;
              setWindowIcon env icon ;;
              ViewerModel_init env self title ndisplay order axis_labels ;;
              qt_viewer <- QtViewer env self ;;
              window <- Window env qt_viewer show ;;
              set_window self window).
  intros tail Htail.
  unfold registration_test, registration_events, platform_system,
    getattr_sys_frozen, read_napari_app_id,
    SetCurrentProcessExplicitAppUserModelID, call.
  unfold bind, log, ret, raise, logged; cbn.
  destruct (String.eqb (system env) "Windows"); cbn;
    [destruct (truthy (default (PyBool false) (frozen env))); cbn;
     [| destruct (truthy (_napari_app_id env)); cbn;
        [destruct (raises env (EvSetCurrentProcessExplicitAppUserModelID
                                 (_napari_app_id env))); cbn |]] |];
    try (match goal with
         | |- context [tail ?w1] =>
             destruct (Htail w1) as (rest & E & F); exists rest;
             rewrite E; cbn; rewrite <- !app_assoc;
             split; [reflexivity | exact F]
         end).
  exists []. rewrite <- !app_assoc. split; [reflexivity | constructor].
Qed.

(** C4, as the code has it: a construction without an event loop stops at
    the guard, makes none of the tests and does not call the shell.  With an
    event loop, the registration is skipped, with no call to the shell, when
    the platform is not Windows, or the process is frozen, or the identity
    is falsy (the disabling [False], and an empty string as well); the three
    tests are made in that order, platform, then [sys.frozen], then the
    identity, each only if the ones before passed.  Otherwise the shell is
    called exactly once, with the identity. *)
Theorem C4_registration env self title ndisplay order axis_labels show w :
  (qapp w = None ->
   trace (snd (__init__ env self title ndisplay order axis_labels show w))
   = trace w ++ [EvQApplicationInstance]
   /\ shell_calls
        (trace (snd (__init__ env self title ndisplay order axis_labels show
                       w)))
      = shell_calls (trace w))
  /\ (forall a,
        qapp w = Some a ->
        exists reg rest,
          trace (snd (__init__ env self title ndisplay order axis_labels show
                        w))
          = trace w ++ [EvQApplicationInstance] ++ reg ++ rest
          /\ Forall later rest
          /\ (system env <> "Windows" -> reg = [EvPlatformSystem])
          /\ (system env = "Windows" ->
              truthy (default (PyBool false) (frozen env)) = true ->
              reg = [EvPlatformSystem; EvGetattrSysFrozen])
          /\ (system env = "Windows" ->
              truthy (default (PyBool false) (frozen env)) = false ->
              truthy (_napari_app_id env) = false ->
              reg = [EvPlatformSystem; EvGetattrSysFrozen;
                     EvReadNapariAppId])
          /\ (system env = "Windows" ->
              truthy (default (PyBool false) (frozen env)) = false ->
              truthy (_napari_app_id env) = true ->
              reg = [EvPlatformSystem; EvGetattrSysFrozen; EvReadNapariAppId;
                     EvReadNapariAppId;
                     EvSetCurrentProcessExplicitAppUserModelID
                       (_napari_app_id env)])
          /\ shell_calls
               (trace (snd (__init__ env self title ndisplay order
                              axis_labels show w)))
             = shell_calls (trace w)
               ++ (if String.eqb (system env) "Windows"
                      && negb (truthy (default (PyBool false) (frozen env)))
                      && truthy (_napari_app_id env)
                   then [_napari_app_id env] else [])).
Proof.
  split.
  - intros Hno.
    assert (E : __init__ env self title ndisplay order axis_labels show w
                = (Raise (RuntimeError message),
                   logged EvQApplicationInstance w)).
    { unfold __init__, QApplication_instance, bind, log.
      cbn. rewrite Hno. reflexivity. }
    rewrite E. cbn [snd logged trace]. split; [reflexivity |].
    rewrite shell_calls_app. cbn. apply app_nil_r.
  - intros a Hq.
    destruct (init_trace env self title ndisplay order axis_labels show w a
                Hq) as (rest & E & F).
    exists (registration_events env), rest.
    split; [exact E |]. split; [exact F |].
    rewrite E, !shell_calls_app, (shell_calls_later _ F), app_nil_r.
    unfold registration_events.
    destruct (String.eqb_spec (system env) "Windows") as [Hs | Hs];
      destruct (truthy (default (PyBool false) (frozen env)));
      destruct (truthy (_napari_app_id env));
      cbn; repeat split; intros; congruence.
Qed.

Lemma C4_registration_witness :
  shell_calls
    (trace (snd (__init__ windows_env 0%nat "napari" 2 None None true
                   (with_heap [ViewerObj None None] with_loop))))
  = [PyStr "napari.napari.viewer.0.2.12"]
  /\ shell_calls
       (trace (snd (__init__ windows_env 0%nat "napari" 2 None None true
                      (with_heap [ViewerObj None None] without_loop))))
     = [].
Proof.
  split.
  - destruct (C4_registration windows_env 0%nat "napari" 2 None None true
                (with_heap [ViewerObj None None] with_loop)) as [_ H].
    destruct (H {| windowIcon := None |} eq_refl)
      as (reg & rest & _ & _ & _ & _ & _ & _ & Hs).
    exact Hs.
  - destruct (C4_registration windows_env 0%nat "napari" 2 None None true
                (with_heap [ViewerObj None None] without_loop)) as [H _].
    destruct (H eq_refl) as [_ Hs]. exact Hs.
Defined.

(** C4, as the claim states it, fails twice.  On Linux with the identity
    switched off, the code asks for the platform and never looks at the
    identity, where the order of the claim looks at the identity first and
    stops there.  On Windows, unfrozen, with an empty string as identity,
    which is not the disabling value, the claim has the shell called once and
    the code does not call it. *)
Lemma C4_counterexample :
  trace (snd (registration_test linux_disabled_env with_loop))
  = [EvPlatformSystem]
  /\ trace (snd (registration_test_spec linux_disabled_env with_loop))
     = [EvReadNapariAppId]
  /\ disabled (_napari_app_id empty_id_env) = false
  /\ fst (registration_test_spec empty_id_env with_loop) = Ok true
  /\ shell_calls
       (trace (snd (Viewer empty_id_env "napari" 2 None None true with_loop)))
     = [].
Proof. repeat split; vm_compute; reflexivity. Qed.

(** *** What each step of a successful construction did *)

(** The registration step only extends the trace. *)
Lemma registration_step env w u w1 :
  (register <- registration_test env ;;
   if register : bool then
     app_id <- read_napari_app_id env ;;
     SetCurrentProcessExplicitAppUserModelID env app_id ;;
     ret tt
   else ret tt) w = (Ok u, w1) ->
  qapp w1 = qapp w /\ heap w1 = heap w
  /\ trace w1 = trace w ++ registration_events env.
Proof.
  unfold registration_test, registration_events, platform_system,
    getattr_sys_frozen, read_napari_app_id,
    SetCurrentProcessExplicitAppUserModelID, call.
  unfold bind, log, ret, raise, logged; cbn.
  destruct (String.eqb (system env) "Windows"); cbn;
    [destruct (truthy (default (PyBool false) (frozen env))); cbn;
     [| destruct (truthy (_napari_app_id env)); cbn;
        [destruct (raises env (EvSetCurrentProcessExplicitAppUserModelID
                                 (_napari_app_id env))); cbn |]] |];
    intros [= <- <-]; cbn; rewrite <- ?app_assoc; auto.
Qed.

Lemma QIcon_inv env p w icon w1 :
  QIcon env p w = (Ok icon, w1) ->
  icon = p /\ w1 = logged (EvQIcon p) w.
Proof.
  unfold QIcon. intros H.
  apply bind_inv_ok in H as ([] & w0 & Hc & H).
  apply call_inv_ok in Hc as [_ ->]. injection H as <- <-. auto.
Qed.

Lemma setWindowIcon_inv env icon w u w1 :
  setWindowIcon env icon w = (Ok u, w1) ->
  qapp w1 = Some {| windowIcon := Some icon |} /\ heap w1 = heap w
  /\ trace w1 = trace w ++ [EvSetWindowIcon icon].
Proof.
  unfold setWindowIcon. intros H.
  apply bind_inv_ok in H as ([] & w0 & Hc & H).
  apply call_inv_ok in Hc as [_ ->]. injection H as _ <-. auto.
Qed.

Lemma ViewerModel_init_inv env self title ndisplay order axis_labels w u w1 :
  ViewerModel_init env self title ndisplay order axis_labels w = (Ok u, w1) ->
  exists m0 window0,
    heap w !! self = Some (ViewerObj m0 window0)
    /\ qapp w1 = qapp w
    /\ heap w1
       = <[self := ViewerObj
                     (Some {| title := title; ndisplay := ndisplay;
                              order := order; axis_labels := axis_labels |})
                     window0]> (heap w)
    /\ trace w1
       = trace w ++ [EvViewerModelInit self title ndisplay order axis_labels].
Proof.
  unfold ViewerModel_init. intros H.
  apply bind_inv_ok in H as ([] & w0 & Hc & H).
  apply call_inv_ok in Hc as [_ ->].
  unfold bind, load, store, raise in H. cbn in H.
  destruct (heap w !! self) as [[m0 window0 | | | | |] |];
    try discriminate H.
  injection H as _ <-. exists m0, window0. auto.
Qed.

Lemma QtViewer_inv env viewer w qt_viewer w1 :
  QtViewer env viewer w = (Ok qt_viewer, w1) ->
  exists console pool extra,
    heap w1 = heap w ++ extra ++ [PoolObj []; QtViewerObj viewer console pool]
    /\ (console = None /\ extra = []
        \/ console = Some (length (heap w)) /\ extra = [ConsoleObj []])
    /\ pool = (length (heap w) + length extra)%nat
    /\ qt_viewer = S pool
    /\ qapp w1 = qapp w
    /\ trace w1 = trace w ++ [EvQtViewer viewer].
Proof.
  unfold QtViewer. intros H.
  apply bind_inv_ok in H as ([] & w0 & Hc & H).
  apply call_inv_ok in Hc as [_ ->].
  unfold bind, alloc, ret, with_heap in H.
  destruct (has_console env); cbn in H; injection H as <- <-.
  - exists (Some (length (heap w))), (length (heap w) + 1)%nat, [ConsoleObj []].
    cbn. rewrite <- !app_assoc, !length_app. cbn.
    split; [reflexivity |]. split; [right; auto |].
    repeat split; lia.
  - exists None, (length (heap w)), [].
    cbn. rewrite <- !app_assoc, !length_app. cbn.
    split; [reflexivity |]. split; [left; auto |].
    repeat split; lia.
Qed.

Lemma Window_inv env qt_viewer show w window w1 :
  Window env qt_viewer show w = (Ok window, w1) ->
  window = length (heap w)
  /\ heap w1 = heap w ++ [WindowObj qt_viewer show]
  /\ qapp w1 = qapp w
  /\ trace w1 = trace w ++ [EvWindow qt_viewer show].
Proof.
  unfold Window. intros H.
  apply bind_inv_ok in H as ([] & w0 & Hc & H).
  apply call_inv_ok in Hc as [_ ->].
  injection H as <- <-. auto.
Qed.

Lemma set_window_inv self window w u w1 :
  set_window self window w = (Ok u, w1) ->
  exists m window0,
    heap w !! self = Some (ViewerObj m window0)
    /\ heap w1 = <[self := ViewerObj m (Some window)]> (heap w)
    /\ qapp w1 = qapp w
    /\ trace w1 = trace w.
Proof.
  unfold set_window, bind, load, store, raise. cbn.
  destruct (heap w !! self) as [[m window0 | | | | |] |];
    intros H; try discriminate H.
  injection H as _ <-. exists m, window0. auto.
Qed.

Lemma lookup_app_add {A} (l1 l2 : list A) (k : nat) :
  (l1 ++ l2) !! (length l1 + k)%nat = l2 !! k.
Proof. rewrite lookup_app_r by lia. f_equal. lia. Qed.

(** Reading an object that the construction appended, after [self] was
    updated in place. *)
Lemma lookup_built (h tl : list obj) (self k : nat) (v x : obj) :
  (self < length h)%nat ->
  tl !! k = Some x ->
  <[self := v]> (h ++ tl) !! (length h + k)%nat = Some x.
Proof.
  intros Hlt Hk. rewrite list_lookup_insert_ne by lia.
  rewrite lookup_app_add. exact Hk.
Qed.

(** C5: a construction that succeeds has, in this order, asked for the
    application instance, gone through the registration step (its queries,
    and the call to the shell where the registration applies), made the icon
    and set it on the application, initialised the model with [title],
    [ndisplay], [order] and [axis_labels], made the [QtViewer] on [self] and
    then the [Window] on that [QtViewer]; the window and the [QtViewer] are
    new objects, the window is visible exactly when [show] is true, and
    [self.window] is that window. *)
Theorem C5_construction_order env self title ndisplay order axis_labels show
    w w' :
  __init__ env self title ndisplay order axis_labels show w = (Ok tt, w') ->
  exists window qt_viewer console pool,
    trace w'
    = trace w ++ [EvQApplicationInstance] ++ registration_events env
      ++ [EvQIcon (logopath env); EvSetWindowIcon (logopath env);
          EvViewerModelInit self title ndisplay order axis_labels;
          EvQtViewer self; EvWindow qt_viewer show]
    /\ Forall (fun ev => is_registration_event ev = true)
         (registration_events env)
    /\ qapp w' = Some {| windowIcon := Some (logopath env) |}
    /\ heap w' !! self
       = Some (ViewerObj
                 (Some {| title := title; ndisplay := ndisplay;
                          order := order; axis_labels := axis_labels |})
                 (Some window))
    /\ heap w' !! window = Some (WindowObj qt_viewer show)
    /\ heap w' !! qt_viewer = Some (QtViewerObj self console pool)
    /\ heap w !! window = None
    /\ heap w !! qt_viewer = None
    /\ viewer_ok w' self window qt_viewer console pool.
Proof.
  intros H.
  destruct (qapp w) as [a |] eqn:Hq.
  2:{ unfold __init__, QApplication_instance, bind, log in H. cbn in H.
      rewrite Hq in H. discriminate H. }
  unfold __init__ in H.
  rewrite (bind_ok QApplication_instance _ w (Some a)
             (logged EvQApplicationInstance w)) in H
    by (unfold QApplication_instance, bind, log; cbn; rewrite Hq; reflexivity).
  apply bind_inv_ok in H as (register & w1 & Hreg & H).
  apply bind_inv_ok in H as ([] & w2 & Hshell & H).
  apply bind_inv_ok in H as (icon & w3 & Hicon & H).
  apply bind_inv_ok in H as ([] & w4 & Hset & H).
  apply bind_inv_ok in H as ([] & w5 & Hmodel & H).
  apply bind_inv_ok in H as (qv & w6 & Hqv & H).
  apply bind_inv_ok in H as (win & w7 & Hwin & H).
  assert (Hstep : qapp w2 = qapp (logged EvQApplicationInstance w)
                  /\ heap w2 = heap (logged EvQApplicationInstance w)
                  /\ trace w2 = trace (logged EvQApplicationInstance w)
                                ++ registration_events env).
  { apply (registration_step env _ tt).
    rewrite (bind_ok _ _ _ _ _ Hreg). exact Hshell. }
  cbn in Hstep. destruct Hstep as (_ & Hh2 & Ht2).
  apply QIcon_inv in Hicon as [-> ->].
  apply setWindowIcon_inv in Hset as (Hq4 & Hh4 & Ht4). cbn in Hh4, Ht4.
  apply ViewerModel_init_inv in Hmodel
    as (m0 & window0 & Hself & Hq5 & Hh5 & Ht5).
  apply QtViewer_inv in Hqv
    as (console & pool & extra & Hh6 & Hextra & -> & -> & Hq6 & Ht6).
  apply Window_inv in Hwin as (-> & Hh7 & Hq7 & Ht7).
  apply set_window_inv in H as (m & window1 & Hself7 & Hh' & Hq' & Ht').
  rewrite Hh4, Hh2 in Hself, Hh5.
  pose proof (lookup_lt_Some _ _ _ Hself) as Hlt.
  assert (Hn5 : length (heap w5) = length (heap w))
    by (rewrite Hh5; apply length_insert).
  assert (Hself5 : heap w5 !! self
                   = Some (ViewerObj
                             (Some {| title := title; ndisplay := ndisplay;
                                      order := order;
                                      axis_labels := axis_labels |})
                             window0))
    by (rewrite Hh5; apply list_lookup_insert_eq; exact Hlt).
  rewrite Hh7, Hh6 in Hself7.
  rewrite (lookup_app_l_Some _ _ _ _ (lookup_app_l_Some _ _ _ _ Hself5))
    in Hself7.
  injection Hself7 as <- <-.
  assert (Hlt5 : (self < length (heap w5))%nat) by (rewrite Hn5; exact Hlt).
  assert (Hheap : heap w'
                  = <[self := ViewerObj
                                (Some {| title := title; ndisplay := ndisplay;
                                         order := order;
                                         axis_labels := axis_labels |})
                                (Some (length (heap w6)))]>
                      (heap w5
                       ++ (extra
                           ++ [PoolObj [];
                               QtViewerObj self console
                                 (length (heap w5) + length extra)%nat;
                               WindowObj
                                 (S (length (heap w5) + length extra))
                                 show]))).
  { rewrite Hh', Hh7, Hh6, <- !app_assoc. reflexivity. }
  assert (Hn6 : length (heap w6)
                = (length (heap w5) + (length extra + 2))%nat).
  { rewrite Hh6, !length_app. cbn. lia. }
  assert (Hpool : heap w' !! (length (heap w5) + length extra)%nat
                  = Some (PoolObj [])).
  { rewrite Hheap. apply lookup_built; [exact Hlt5 |].
    apply list_lookup_middle. reflexivity. }
  assert (Hqt : heap w' !! S (length (heap w5) + length extra)
                = Some (QtViewerObj self console
                          (length (heap w5) + length extra)%nat)).
  { rewrite Hheap.
    replace (S (length (heap w5) + length extra))
      with (length (heap w5) + (length extra + 1))%nat by lia.
    apply lookup_built; [exact Hlt5 |].
    rewrite lookup_app_add. reflexivity. }
  assert (Hwindow : heap w' !! length (heap w6)
                    = Some (WindowObj (S (length (heap w5) + length extra))
                              show)).
  { rewrite Hheap, Hn6. apply lookup_built; [exact Hlt5 |].
    rewrite lookup_app_add. reflexivity. }
  assert (Hviewer : heap w' !! self
                    = Some (ViewerObj
                              (Some {| title := title; ndisplay := ndisplay;
                                       order := order;
                                       axis_labels := axis_labels |})
                              (Some (length (heap w6))))).
  { rewrite Hheap. apply list_lookup_insert_eq. rewrite length_app. lia. }
  exists (length (heap w6)), (S (length (heap w5) + length extra)), console,
    (length (heap w5) + length extra)%nat.
  split.
  { rewrite Ht', Ht7, Ht6, Ht5, Ht4, Ht2, <- !app_assoc. reflexivity. }
  split.
  { unfold registration_events.
    destruct (String.eqb (system env) "Windows");
      destruct (truthy (default (PyBool false) (frozen env)));
      destruct (truthy (_napari_app_id env));
      repeat constructor. }
  split; [rewrite Hq', Hq7, Hq6, Hq5; exact Hq4 |].
  split; [exact Hviewer |]. split; [exact Hwindow |]. split; [exact Hqt |].
  split; [apply lookup_ge_None; lia |].
  split; [apply lookup_ge_None; lia |].
  split.
  - eexists. exact Hviewer.
  - eexists. exact Hwindow.
  - exact Hqt.
  - eexists. exact Hpool.
  - intros c ->. exists [].
    destruct Hextra as [[[=] _] | [[= ->] ->]].
    rewrite Hheap, list_lookup_insert_ne by lia.
    apply list_lookup_middle. reflexivity.
Qed.

Lemma C5_construction_order_witness :
  exists window qt_viewer,
    heap (snd (__init__ windows_env 0%nat "napari" 2 None None true
                 (with_heap [ViewerObj None None] with_loop))) !! 0%nat
    = Some (ViewerObj
              (Some {| title := "napari"; ndisplay := 2; order := None;
                       axis_labels := None |})
              (Some window))
    /\ heap (snd (__init__ windows_env 0%nat "napari" 2 None None true
                    (with_heap [ViewerObj None None] with_loop))) !! window
       = Some (WindowObj qt_viewer true).
Proof.
  destruct (C5_construction_order windows_env 0%nat "napari" 2 None None true
              (with_heap [ViewerObj None None] with_loop)
              (snd (__init__ windows_env 0%nat "napari" 2 None None true
                      (with_heap [ViewerObj None None] with_loop)))
              eq_refl)
    as (window & qt_viewer & console & pool & _ & _ & _ & Hs & Hw & _).
  exists window, qt_viewer. split; assumption.
Defined.

(** When no collaborator raises, a construction on a new instance in a
    process with an event loop returns. *)
(** Reduction of the world's projections, leaving heap lookups as they
    are. *)
Ltac run := cbn [qapp heap trace negb].

Lemma init_returns env self title ndisplay order axis_labels show w a m0
    window0 :
  qapp w = Some a ->
  quiet env ->
  heap w !! self = Some (ViewerObj m0 window0) ->
  exists w',
    __init__ env self title ndisplay order axis_labels show w = (Ok tt, w').
Proof.
  intros Hq Hquiet Hself.
  pose proof (lookup_lt_Some _ _ _ Hself) as Hlt.
  pose proof (list_lookup_insert_eq (heap w) self
                (ViewerObj
                   (Some {| title := title; ndisplay := ndisplay;
                            order := order; axis_labels := axis_labels |})
                   window0) Hlt) as Hself1.
  unfold __init__, QApplication_instance, registration_test, platform_system,
    getattr_sys_frozen, read_napari_app_id,
    SetCurrentProcessExplicitAppUserModelID, QIcon, setWindowIcon,
    ViewerModel_init, QtViewer, Window, set_window, call.
  unfold bind, log, ret, raise, alloc, load, store, logged, with_heap.
  run. rewrite Hq; run.
  destruct (String.eqb (system env) "Windows"); run;
    [destruct (truthy (default (PyBool false) (frozen env))); run;
     [| destruct (truthy (_napari_app_id env)); run] |];
    rewrite ?Hquiet; run; rewrite Hself; run; rewrite ?Hquiet; run;
    destruct (has_console env); run; rewrite ?Hquiet; run;
    erewrite lookup_app_l_Some
      by (repeat apply lookup_app_l_Some; exact Hself1);
    eexists; reflexivity.
Qed.

(** C3, as the code has it: where the registration applies, a shell call
    that raises ends the construction with that exception, after the call
    and before the icon, the model and the window; a shell call that returns
    has its status dropped, whatever it is, so a failure status does not stop
    the construction, which then returns if no later collaborator raises. *)
Theorem C3_registration_failure env self title ndisplay order axis_labels
    show w a :
  qapp w = Some a ->
  system env = "Windows" ->
  truthy (default (PyBool false) (frozen env)) = false ->
  truthy (_napari_app_id env) = true ->
  (forall e,
      raises env (EvSetCurrentProcessExplicitAppUserModelID
                    (_napari_app_id env)) = Some e ->
      __init__ env self title ndisplay order axis_labels show w
      = (Raise e,
         {| qapp := qapp w; heap := heap w;
            trace := trace w
                     ++ [EvQApplicationInstance; EvPlatformSystem;
                         EvGetattrSysFrozen; EvReadNapariAppId;
                         EvReadNapariAppId;
                         EvSetCurrentProcessExplicitAppUserModelID
                           (_napari_app_id env)] |}))
  /\ (quiet env ->
      (exists m0 window0, heap w !! self = Some (ViewerObj m0 window0)) ->
      exists w',
        __init__ env self title ndisplay order axis_labels show w
        = (Ok tt, w')
        /\ shell_calls (trace w')
           = shell_calls (trace w) ++ [_napari_app_id env]).
Proof.
  intros Hq Hsys Hfrozen Hid. split.
  - intros e Hr.
    unfold __init__, QApplication_instance, registration_test,
      platform_system, getattr_sys_frozen, read_napari_app_id,
      SetCurrentProcessExplicitAppUserModelID, call.
    unfold bind, log, ret, raise, logged; cbn.
    rewrite Hq, Hsys; cbn. rewrite Hfrozen; cbn. rewrite Hid; cbn.
    rewrite Hr; cbn. rewrite <- !app_assoc. reflexivity.
  - intros Hquiet (m0 & window0 & Hself).
    destruct (init_returns env self title ndisplay order axis_labels show
                w a m0 window0 Hq Hquiet Hself) as [w' Hw'].
    exists w'. split; [exact Hw' |].
    destruct (init_trace env self title ndisplay order axis_labels show w a
                Hq) as (rest & E & F).
    rewrite Hw' in E. cbn [snd] in E. rewrite E.
    rewrite !shell_calls_app, (shell_calls_later _ F), app_nil_r.
    unfold registration_events. rewrite Hsys, Hfrozen, Hid. reflexivity.
Qed.

Lemma C3_registration_failure_witness :
  fst (__init__ shell_raises_env 0%nat "napari" 2 None None true
         (with_heap [ViewerObj None None] with_loop))
  = Raise (OSError "exception: access violation")
  /\ hresult shell_fails_env < 0
  /\ exists w',
       __init__ shell_fails_env 0%nat "napari" 2 None None true
         (with_heap [ViewerObj None None] with_loop)
       = (Ok tt, w').
Proof.
  split.
  - destruct (C3_registration_failure shell_raises_env 0%nat "napari" 2 None
                None true (with_heap [ViewerObj None None] with_loop)
                {| windowIcon := None |} eq_refl eq_refl eq_refl eq_refl)
      as [H _].
    rewrite (H _ eq_refl). reflexivity.
  - split; [reflexivity |].
    destruct (C3_registration_failure shell_fails_env 0%nat "napari" 2 None
                None true (with_heap [ViewerObj None None] with_loop)
                {| windowIcon := None |} eq_refl eq_refl eq_refl eq_refl)
      as [_ H].
    destruct H as (w' & Hw' & _).
    + intros ev. reflexivity.
    + exists None, None. reflexivity.
    + exists w'. exact Hw'.
Defined.

(** C3, as the claim states it, fails: on Windows, unfrozen, with the default
    identity, a shell call that raises [OSError] makes [Viewer(...)] raise
    that [OSError]; the construction stops after the call, with no icon, no
    model and no window. *)
Lemma C3_counterexample :
  Viewer shell_raises_env "napari" 2 None None true with_loop
  = (Raise (OSError "exception: access violation"),
     {| qapp := Some {| windowIcon := None |};
        heap := [ViewerObj None None];
        trace := [EvQApplicationInstance; EvPlatformSystem;
                  EvGetattrSysFrozen; EvReadNapariAppId; EvReadNapariAppId;
                  EvSetCurrentProcessExplicitAppUserModelID
                    (PyStr "napari.napari.viewer.0.2.12")] |}).
Proof. reflexivity. Qed.

(** * Further properties of the module *)

(** ** Errors and frame of [update] *)



(** *** Reading attributes changes nothing *)

Lemma reads_get_window self : reads (get_window self).
Proof.
  intros w. unfold get_window, bind, load, ret, raise. cbn [fst snd].
  destruct (heap w !! self) as [[m [window |] | | | | |] |]; reflexivity.
Qed.

Lemma reads_get_qt_viewer window : reads (get_qt_viewer window).
Proof.
  intros w. unfold get_qt_viewer, bind, load, ret, raise. cbn [fst snd].
  destruct (heap w !! window) as [[| | qt_viewer vis | | |] |]; reflexivity.
Qed.

Lemma reads_get_console qt_viewer : reads (get_console qt_viewer).
Proof.
  intros w. unfold get_console, bind, load, ret, raise. cbn [fst snd].
  destruct (heap w !! qt_viewer) as [[| viewer console pool | | | |] |];
    reflexivity.
Qed.

Lemma reads_get_pool qt_viewer : reads (get_pool qt_viewer).
Proof.
  intros w. unfold get_pool, bind, load, ret, raise. cbn [fst snd].
  destruct (heap w !! qt_viewer) as [[| viewer console pool | | | |] |];
    reflexivity.
Qed.

(** After a computation that only reads, the rest runs in the same world, or
    the exception leaves in it. *)
Lemma bind_reads {A B} (c : M A) (k : A -> M B) w :
  reads c ->
  (exists a, c w = (Ok a, w) /\ bind c k w = k a w)
  \/ (exists e, c w = (Raise e, w) /\ bind c k w = (Raise e, w)).
Proof.
  intros Hc. pose proof (Hc w) as Hw. unfold bind.
  destruct (c w) as [[a | e] w1]; cbn [snd] in Hw; subst w1.
  - left. exists a. split; reflexivity.
  - right. exists e. split; reflexivity.
Qed.

Lemma reads_bind {A B} (c : M A) (k : A -> M B) :
  reads c -> (forall a, reads (k a)) -> reads (bind c k).
Proof.
  intros Hc Hk w. unfold bind. pose proof (Hc w) as Hw.
  destruct (c w) as [[a | e] w1]; cbn [snd] in Hw; subst w1.
  - apply Hk.
  - reflexivity.
Qed.

(** What follows a step changes nothing if it only reads. *)
Lemma snd_bind_reads {A B} (c : M A) (k : A -> M B) w :
  (forall a, reads (k a)) -> snd (bind c k w) = snd (c w).
Proof.
  intros Hk. unfold bind. destruct (c w) as [[a | e] w1].
  - apply Hk.
  - reflexivity.
Qed.

(** [self.window.qt_viewer.pool] *)
Lemma reads_pool_chain self :
  reads (window <- get_window self ;;
         qt_viewer <- get_qt_viewer window ;;
         get_pool qt_viewer).
Proof.
  apply reads_bind; [apply reads_get_window |]. intros window.
  apply reads_bind; [apply reads_get_qt_viewer |]. intros qt_viewer.
  apply reads_get_pool.
Qed.

(** One attribute read at the head of the goal's computation: it returns, or
    the computation ends there. *)
Tactic Notation "read_step" constr(lem) "as" ident(a) :=
  match goal with
  | |- context [bind ?c ?k ?w] =>
      destruct (bind_reads c k w lem) as [(a & _ & ->) | (? & _ & ->)]
  end.

(** The two outcomes of making a runnable. *)
Lemma QtUpdateUI_cases env f a k w :
  QtUpdateUI env f a k w
  = (Ok (length (heap w)),
     with_heap (heap w ++ [TaskObj {| func := f; args := a; kwargs := k |}])
       (logged (EvQtUpdateUI f a k) w))
  \/ exists e,
       QtUpdateUI env f a k w = (Raise e, logged (EvQtUpdateUI f a k) w).
Proof.
  destruct (raises env (EvQtUpdateUI f a k)) as [e |] eqn:Hr.
  - right. exists e. unfold QtUpdateUI. apply bind_raise, call_raise, Hr.
  - left. apply QtUpdateUI_ok, Hr.
Qed.

(** The outcomes of [pool.start]: the queue gains the runnable, or nothing
    in the heap changes. *)
Lemma start_cases env pool t w :
  qapp (snd (start env pool t w)) = qapp w
  /\ (heap (snd (start env pool t w)) = heap w
      \/ exists queue,
           heap w !! pool = Some (PoolObj queue)
           /\ heap (snd (start env pool t w))
              = <[pool := PoolObj (queue ++ [t])]> (heap w)).
Proof.
  unfold start, call, bind, log, load, store, ret, raise.
  cbn [fst snd qapp heap trace logged].
  destruct (raises env (EvPoolStart pool t)); cbn [fst snd qapp heap logged];
    [auto |].
  destruct (heap w !! pool) as [[| | | | queue |] |] eqn:Hp;
    cbn [fst snd qapp heap logged with_heap]; auto.
  split; [reflexivity |]. right. exists queue. auto.
Qed.

(** X2: however it ends, [update] leaves the application singleton alone,
    adds at most one object to the heap, and changes no existing object,
    except that a pool may have one more entry at the end of its queue: the
    viewer, its window, the [qt_viewer] and the console are never written. *)
Theorem X2_update_frame env self f a k w :
  qapp (snd (update env self f a k w)) = qapp w
  /\ (length (heap w) <= length (heap (snd (update env self f a k w)))
      <= length (heap w) + 1)%nat
  /\ (forall r o,
        heap w !! r = Some o ->
        heap (snd (update env self f a k w)) !! r = Some o
        \/ exists queue t,
             o = PoolObj queue
             /\ heap (snd (update env self f a k w)) !! r
                = Some (PoolObj (queue ++ [t]))).
Proof.
  unfold update.
  destruct (collision k) as [name |].
  { cbn. split; [reflexivity |]. split; [lia | auto]. }
  destruct (QtUpdateUI_cases env f a k w) as [E1 | [e E1]].
  2:{ rewrite (bind_raise _ _ _ _ _ E1). cbn.
      split; [reflexivity |]. split; [lia | auto]. }
  rewrite (bind_ok _ _ _ _ _ E1).
  set (w1 := with_heap
               (heap w ++ [TaskObj {| func := f; args := a; kwargs := k |}])
               (logged (EvQtUpdateUI f a k) w)).
  assert (Hw1 : qapp w1 = qapp w
                /\ (length (heap w) <= length (heap w1)
                    <= length (heap w) + 1)%nat
                /\ forall r o, heap w !! r = Some o ->
                               heap w1 !! r = Some o).
  { cbn. rewrite length_app. cbn. split; [reflexivity |].
    split; [lia |]. intros r o Hr. apply lookup_app_l_Some, Hr. }
  destruct Hw1 as (Hq1 & Hl1 & Hh1).
  assert (Hstop : forall e : exn,
            qapp (snd (@Raise ref e, w1)) = qapp w
            /\ (length (heap w) <= length (heap (snd (@Raise ref e, w1)))
                <= length (heap w) + 1)%nat
            /\ (forall r o,
                  heap w !! r = Some o ->
                  heap (snd (@Raise ref e, w1)) !! r = Some o
                  \/ exists queue t,
                       o = PoolObj queue
                       /\ heap (snd (@Raise ref e, w1)) !! r
                          = Some (PoolObj (queue ++ [t])))).
  { intros e. cbn [snd]. split; [exact Hq1 |]. split; [exact Hl1 |].
    intros r o Hr. left. apply Hh1, Hr. }
  read_step (reads_get_window self) as window; [| apply Hstop].
  read_step (reads_get_qt_viewer window) as qt_viewer; [| apply Hstop].
  read_step (reads_get_pool qt_viewer) as pool; [| apply Hstop].
  rewrite snd_bind_reads by (intros _; apply reads_pool_chain).
  destruct (start_cases env pool (length (heap w)) w1)
    as (Hq2 & [Hh2 | (queue & Hp & Hh2)]); rewrite Hq2, Hh2.
  - split; [exact Hq1 |]. split; [exact Hl1 |].
    intros r o Hr. left. apply Hh1, Hr.
  - split; [exact Hq1 |]. split; [rewrite length_insert; exact Hl1 |].
    intros r o Hr. apply Hh1 in Hr.
    destruct (decide (r = pool)) as [-> | Hne].
    + right. exists queue, (length (heap w)).
      assert (Ho : Some (PoolObj queue) = Some o)
        by (rewrite <- Hp; exact Hr).
      injection Ho as <-. split; [reflexivity |].
      apply list_lookup_insert_eq. eapply lookup_lt_Some, Hp.
    + left. rewrite list_lookup_insert_ne by congruence. exact Hr.
Qed.

(** ** Submitting several jobs *)

Lemma task_eta (j : task) :
  {| func := func j; args := args j; kwargs := kwargs j |} = j.
Proof. destruct j. reflexivity. Qed.


(** X3: when no collaborator raises and no job has a keyword named [func] or
    [self], submitting a list of jobs one after the
    other returns the same pool for every job, puts the new runnables at the
    end of the pool's queue in the order of the calls, runnable [i] holding
    job [i], and changes no other object. *)
Theorem X3_update_each_order env self jobs w window qt_viewer console pool
    queue :
  viewer_ok w self window qt_viewer console pool ->
  heap w !! pool = Some (PoolObj queue) ->
  quiet env ->
  Forall (fun j => collision (kwargs j) = None) jobs ->
  exists w',
    update_each env self jobs w = (Ok (replicate (length jobs) pool), w')
    /\ heap w' !! pool
       = Some (PoolObj (queue ++ seq (length (heap w)) (length jobs)))
    /\ (forall i j,
          jobs !! i = Some j ->
          heap w' !! (length (heap w) + i)%nat = Some (TaskObj j))
    /\ (forall r o,
          heap w !! r = Some o -> r <> pool -> heap w' !! r = Some o)
    /\ length (heap w') = (length (heap w) + length jobs)%nat
    /\ viewer_ok w' self window qt_viewer console pool.
Proof.
  intros ok Hq Hquiet Hjobs. revert w queue ok Hq.
  induction Hjobs as [| j jobs Hk Hjobs IH]; intros w queue ok Hq.
  - exists w. cbn. rewrite app_nil_r, Nat.add_0_r.
    split; [reflexivity |]. split; [exact Hq |].
    split; [intros i j [=] |]. split; [auto |].
    split; [reflexivity | exact ok].
  - pose proof (lookup_lt_Some _ _ _ Hq) as Hlt.
    pose proof (update_ok env self (func j) (args j) (kwargs j) w _ _ _ _ _
                  ok Hq (Hquiet _) (Hquiet _) Hk) as Hu.
    pose proof (update_keeps_ok env self (func j) (args j) (kwargs j) w
                  _ _ _ _ _ ok Hq (Hquiet _) (Hquiet _) Hk) as ok1.
    rewrite Hu in ok1. cbn [snd] in ok1. rewrite task_eta in Hu, ok1.
    set (w1 := {| qapp := qapp w;
                  heap := <[pool := PoolObj (queue ++ [length (heap w)])]>
                            (heap w ++ [TaskObj j]);
                  trace := trace w
                           ++ [EvQtUpdateUI (func j) (args j) (kwargs j);
                               EvPoolStart pool (length (heap w))] |})
      in Hu, ok1.
    assert (Hlen1 : length (heap w1) = S (length (heap w))).
    { cbn. rewrite length_insert, length_app. cbn. lia. }
    assert (Hq1 : heap w1 !! pool
                  = Some (PoolObj (queue ++ [length (heap w)]))).
    { cbn. apply list_lookup_insert_eq. rewrite length_app. cbn. lia. }
    destruct (IH w1 _ ok1 Hq1) as (w' & Hrun & Hpool & Htasks & Hframe
                                   & Hlen & ok').
    exists w'. split.
    { cbn [update_each length replicate].
      rewrite (bind_ok _ _ _ _ _ Hu), (bind_ok _ _ _ _ _ Hrun).
      reflexivity. }
    split.
    { rewrite Hpool, Hlen1, <- app_assoc. reflexivity. }
    split.
    { intros [| i] j' Hj; cbn in Hj.
      - injection Hj as <-. rewrite Nat.add_0_r.
        apply Hframe; [| lia]. cbn.
        rewrite list_lookup_insert_ne by lia.
        apply list_lookup_middle. reflexivity.
      - replace (length (heap w) + S i)%nat
          with (length (heap w1) + i)%nat by lia.
        apply Htasks, Hj. }
    split.
    { intros r o Hr Hne. apply Hframe; [| exact Hne]. cbn.
      rewrite list_lookup_insert_ne by congruence.
      apply lookup_app_l_Some, Hr. }
    split; [rewrite Hlen, Hlen1; cbn; lia | exact ok'].
Qed.

Lemma X3_update_each_order_witness :
  exists w',
    update_each windows_env 0%nat
      [{| func := "load"; args := [PyStr "a.tif"]; kwargs := ∅ |};
       {| func := "refresh"; args := []; kwargs := ∅ |}]
      (session windows_env)
    = (Ok [2; 2]%nat, w')
    /\ heap w' !! 2%nat = Some (PoolObj [5; 6]%nat).
Proof.
  pose proof (X3_update_each_order windows_env 0%nat
              [{| func := "load"; args := [PyStr "a.tif"]; kwargs := ∅ |};
               {| func := "refresh"; args := []; kwargs := ∅ |}]
              (session windows_env) 4%nat 3%nat (Some 1%nat) 2%nat []
              session_windows_ok eq_refl (fun ev => eq_refl))
    as H.
  destruct H as (w' & Hrun & Hpool & _); [repeat constructor |].
  exists w'. split; [exact Hrun | exact Hpool].
Defined.

(** ** Errors and sequences of [update_console] *)

(** A viewer stays constructed when its console receives a push. *)
Lemma viewer_ok_pushed pushed w self window qt_viewer c pool old :
  viewer_ok w self window qt_viewer (Some c) pool ->
  heap w !! c = Some (ConsoleObj old) ->
  viewer_ok (with_heap (<[c := ConsoleObj pushed]> (heap w)) w)
    self window qt_viewer (Some c) pool.
Proof.
  intros [[m H1] [vis H2] H3 [q H4] H5] Hc. split; cbn.
  - exists m. rewrite list_lookup_insert_ne; [exact H1 | congruence].
  - exists vis. rewrite list_lookup_insert_ne; [exact H2 | congruence].
  - rewrite list_lookup_insert_ne; [exact H3 | congruence].
  - exists q. rewrite list_lookup_insert_ne; [exact H4 | congruence].
  - intros c' [= <-]. exists pushed.
    apply list_lookup_insert_eq. eapply lookup_lt_Some, Hc.
Qed.



(** X5: when no collaborator raises, a series of calls of [update_console]
    does nothing at all on a viewer without console; on a viewer with a
    console it leaves the arguments with the console in the order of the
    calls, after what the console already held, makes one push per call, in
    that order, and changes no other object. *)
Theorem X5_update_console_each env self vs w window qt_viewer console pool :
  viewer_ok w self window qt_viewer console pool ->
  quiet env ->
  (console = None -> update_console_each env self vs w = (Ok tt, w))
  /\ (forall c pushed,
        console = Some c ->
        heap w !! c = Some (ConsoleObj pushed) ->
        exists w',
          update_console_each env self vs w = (Ok tt, w')
          /\ heap w' !! c = Some (ConsoleObj (pushed ++ vs))
          /\ (forall r o,
                heap w !! r = Some o -> r <> c -> heap w' !! r = Some o)
          /\ length (heap w') = length (heap w)
          /\ trace w' = trace w ++ map (EvConsolePush c) vs).
Proof.
  intros ok Hquiet. split.
  - intros ->. induction vs as [| v vs IH]; [reflexivity |].
    cbn [update_console_each].
    rewrite (bind_ok _ _ _ _ _ (update_console_detached env self v w _ _ _ ok)).
    exact IH.
  - intros c pushed -> Hc. revert w pushed ok Hc.
    induction vs as [| v vs IH]; intros w pushed ok Hc.
    + exists w. cbn. rewrite !app_nil_r. auto.
    + pose proof (update_console_attached env self v w _ _ _ _ _ ok Hc
                    (Hquiet _)) as Hu.
      pose proof (viewer_ok_pushed (pushed ++ [v]) _ _ _ _ _ _ _
                    (viewer_ok_logged (EvConsolePush c v) _ _ _ _ _ _ ok)
                    Hc) as ok1.
      set (w1 := with_heap (<[c := ConsoleObj (pushed ++ [v])]> (heap w))
                   (logged (EvConsolePush c v) w)) in Hu, ok1.
      assert (Hc1 : heap w1 !! c = Some (ConsoleObj (pushed ++ [v]))).
      { cbn. apply list_lookup_insert_eq. eapply lookup_lt_Some, Hc. }
      destruct (IH w1 _ ok1 Hc1) as (w' & Hrun & Hcon & Hframe & Hlen & Htr).
      exists w'. split.
      { cbn [update_console_each]. rewrite (bind_ok _ _ _ _ _ Hu).
        exact Hrun. }
      split; [rewrite Hcon, <- app_assoc; reflexivity |].
      split.
      { intros r o Hr Hne. apply Hframe; [| exact Hne]. cbn.
        rewrite list_lookup_insert_ne by congruence. exact Hr. }
      split; [rewrite Hlen; cbn; apply length_insert |].
      rewrite Htr. cbn. rewrite <- app_assoc. reflexivity.
Qed.

Lemma X5_update_console_each_witness :
  update_console_each script_env 0%nat [VarStr "a"; VarStr "b"]
    (session script_env)
  = (Ok tt, session script_env)
  /\ exists w',
       update_console_each windows_env 0%nat [VarStr "a"; VarStr "b"]
         (session windows_env)
       = (Ok tt, w')
       /\ heap w' !! 1%nat = Some (ConsoleObj [VarStr "a"; VarStr "b"]).
Proof.
  split.
  - destruct (X5_update_console_each script_env 0%nat
                [VarStr "a"; VarStr "b"] (session script_env) 3%nat 2%nat
                None 1%nat session_script_ok (fun ev => eq_refl)) as [H _].
    exact (H eq_refl).
  - destruct (X5_update_console_each windows_env 0%nat
                [VarStr "a"; VarStr "b"] (session windows_env) 4%nat 3%nat
                (Some 1%nat) 2%nat session_windows_ok (fun ev => eq_refl))
      as [_ H].
    destruct (H 1%nat [] eq_refl eq_refl) as (w' & Hrun & Hcon & _).
    exists w'. split; [exact Hrun | exact Hcon].
Defined.

(** ** Effects and errors of [screenshot] *)

Lemma Window_screenshot_snd env window p w :
  snd (Window_screenshot env window p w)
  = logged (EvWindowScreenshot window p) w.
Proof.
  unfold Window_screenshot, call, bind, log, ret, raise.
  destruct (raises env (EvWindowScreenshot window p)); reflexivity.
Qed.

Lemma QtViewer_screenshot_snd env qt_viewer p w :
  snd (QtViewer_screenshot env qt_viewer p w)
  = logged (EvQtViewerScreenshot qt_viewer p) w.
Proof.
  unfold QtViewer_screenshot, call, bind, log, ret, raise.
  destruct (raises env (EvQtViewerScreenshot qt_viewer p)); reflexivity.
Qed.

(** X6: however it ends, [screenshot] writes no object and leaves the
    application singleton alone.  It makes at most one call, a capture with
    the [path] it was given: of a window when [with_viewer] is true, of a
    [qt_viewer] otherwise, never both and never the other one. *)
Theorem X6_screenshot_effects (env : Env) self p (with_viewer : bool) w :
  snd (screenshot env self p with_viewer w) = w
  \/ exists r,
       snd (screenshot env self p with_viewer w)
       = logged (if with_viewer then EvWindowScreenshot r p
                 else EvQtViewerScreenshot r p) w.
Proof.
  unfold screenshot. destruct with_viewer.
  - read_step (reads_get_window self) as window; [| left; reflexivity].
    right. exists window. apply Window_screenshot_snd.
  - read_step (reads_get_window self) as window; [| left; reflexivity].
    read_step (reads_get_qt_viewer window) as qt_viewer;
      [| left; reflexivity].
    right. exists qt_viewer. apply QtViewer_screenshot_snd.
Qed.

(** X7: [screenshot] swallows no exception of the capture: if the capture it
    selects raises, for instance on writing the file, [screenshot] raises
    the same exception and returns no image. *)
Theorem X7_screenshot_errors env self p w window qt_viewer console pool e :
  viewer_ok w self window qt_viewer console pool ->
  (raises env (EvWindowScreenshot window p) = Some e ->
   screenshot env self p true w
   = (Raise e, logged (EvWindowScreenshot window p) w))
  /\ (raises env (EvQtViewerScreenshot qt_viewer p) = Some e ->
      screenshot env self p false w
      = (Raise e, logged (EvQtViewerScreenshot qt_viewer p) w)).
Proof.
  intros ok. split; intros Hr; unfold screenshot.
  - rewrite (bind_ok _ _ _ _ _ (get_window_ok ok)).
    unfold Window_screenshot. apply bind_raise, call_raise, Hr.
  - rewrite (bind_ok _ _ _ _ _ (get_window_ok ok)).
    rewrite (bind_ok _ _ _ _ _ (get_qt_viewer_ok ok)).
    unfold QtViewer_screenshot. apply bind_raise, call_raise, Hr.
Qed.

Lemma X7_screenshot_errors_witness :
  screenshot capture_raises_env 0%nat (Some "shot.png") false
    (session windows_env)
  = (Raise (OSError "cannot write file"),
     logged (EvQtViewerScreenshot 3%nat (Some "shot.png"))
       (session windows_env)).
Proof.
  destruct (X7_screenshot_errors capture_raises_env 0%nat (Some "shot.png")
              (session windows_env) 4%nat 3%nat (Some 1%nat) 2%nat
              (OSError "cannot write file") session_windows_ok) as [_ H].
  exact (H eq_refl).
Defined.

(** ** Showing and closing *)

Lemma viewer_ok_window visible w self window qt_viewer console pool :
  viewer_ok w self window qt_viewer console pool ->
  viewer_ok
    (with_heap (<[window := WindowObj qt_viewer visible]> (heap w)) w)
    self window qt_viewer console pool.
Proof.
  intros [[m H1] [vis H2] H3 [q H4] H5]. split; cbn.
  - exists m. rewrite list_lookup_insert_ne; [exact H1 | congruence].
  - exists visible. apply list_lookup_insert_eq. eapply lookup_lt_Some, H2.
  - rewrite list_lookup_insert_ne; [exact H3 | congruence].
  - exists q. rewrite list_lookup_insert_ne; [exact H4 | congruence].
  - intros c Hc. destruct (H5 c Hc) as [l Hl].
    exists l. rewrite list_lookup_insert_ne; [exact Hl | congruence].
Qed.

Lemma close_ok env self w window qt_viewer console pool :
  viewer_ok w self window qt_viewer console pool ->
  raises env (EvWindowClose window) = None ->
  close env self w
  = (Ok tt, with_heap (<[window := WindowObj qt_viewer false]> (heap w))
              (logged (EvWindowClose window) w)).
Proof.
  intros ok Hr. destruct (ok_window _ _ _ _ _ _ ok) as [vis Hw].
  unfold close. rewrite (bind_ok _ _ _ _ _ (get_window_ok ok)).
  unfold Window_close. rewrite (bind_ok _ _ _ _ _ (call_ok _ _ _ Hr)).
  unfold bind, load. cbn. rewrite Hw. reflexivity.
Qed.

(** X8: [close] only asks the window to close: [self.window] stays bound and
    nothing guards the other methods afterwards.  When no collaborator
    raises and no keyword is named [func] or [self], an [update] after
    [close] still queues its runnable on the same pool and returns that
    pool. *)
Theorem X8_update_after_close env self f a k w window qt_viewer console pool
    queue :
  viewer_ok w self window qt_viewer console pool ->
  heap w !! pool = Some (PoolObj queue) ->
  quiet env ->
  collision k = None ->
  exists w1 w2,
    close env self w = (Ok tt, w1)
    /\ trace w1 = trace w ++ [EvWindowClose window]
    /\ update env self f a k w1 = (Ok pool, w2)
    /\ heap w2 !! pool = Some (PoolObj (queue ++ [length (heap w)]))
    /\ heap w2 !! length (heap w)
       = Some (TaskObj {| func := f; args := a; kwargs := k |}).
Proof.
  intros ok Hq Hquiet Hk.
  pose proof (lookup_lt_Some _ _ _ Hq) as Hlt.
  pose proof (viewer_ok_window false _ _ _ _ _ _
                (viewer_ok_logged (EvWindowClose window) _ _ _ _ _ _ ok))
    as ok1.
  set (w1 := with_heap (<[window := WindowObj qt_viewer false]> (heap w))
               (logged (EvWindowClose window) w)) in ok1.
  assert (Hq1 : heap w1 !! pool = Some (PoolObj queue)).
  { cbn. destruct (ok_window _ _ _ _ _ _ ok) as [vis Hw].
    rewrite list_lookup_insert_ne; [exact Hq | congruence]. }
  assert (Hlen : length (heap w1) = length (heap w))
    by (cbn; apply length_insert).
  exists w1. eexists.
  split; [apply (close_ok env self w _ _ _ _ ok), Hquiet |].
  split; [reflexivity |].
  split.
  { apply (update_ok env self f a k w1 _ _ _ _ _ ok1 Hq1);
      [apply Hquiet | apply Hquiet | exact Hk]. }
  pose proof (lookup_lt_Some _ _ _ Hq1) as Hlt1.
  rewrite <- Hlen. split; cbn [heap].
  - apply list_lookup_insert_eq. rewrite length_app. lia.
  - rewrite list_lookup_insert_ne by lia.
    apply list_lookup_middle. reflexivity.
Qed.

Lemma X8_update_after_close_witness :
  exists w1 w2,
    close windows_env 0%nat (session windows_env) = (Ok tt, w1)
    /\ update windows_env 0%nat "refresh" [] ∅ w1 = (Ok 2%nat, w2)
    /\ heap w2 !! 2%nat = Some (PoolObj [5%nat]).
Proof.
  pose proof (X8_update_after_close windows_env 0%nat "refresh" [] ∅
              (session windows_env) 4%nat 3%nat (Some 1%nat) 2%nat []
              session_windows_ok eq_refl (fun ev => eq_refl))
    as H.
  destruct (H eq_refl) as (w1 & w2 & Hc & _ & Hu & Hq & _).
  exists w1, w2. auto.
Defined.

(** ** Invariants of a construction *)

Section Keeps.
Context (J : World -> Prop).
Hypothesis J_logged : forall ev w, J w -> J (logged ev w).
Hypothesis J_alloc : forall o w, J w -> J (with_heap (heap w ++ [o]) w).

Lemma keeps_ret {A} (a : A) : keeps J (ret a).
Proof. intros w Hw. exact Hw. Qed.

Lemma keeps_raise {A} e : keeps J (@raise A e).
Proof. intros w Hw. exact Hw. Qed.

Lemma keeps_load r : keeps J (load r).
Proof. intros w Hw. exact Hw. Qed.

Lemma keeps_bind {A B} (c : M A) (k : A -> M B) :
  keeps J c -> (forall a, keeps J (k a)) -> keeps J (bind c k).
Proof.
  intros Hc Hk w Hw. unfold bind. pose proof (Hc w Hw) as H1.
  destruct (c w) as [[a | e] w1]; cbn [snd] in H1.
  - apply Hk, H1.
  - exact H1.
Qed.

Lemma keeps_log ev : keeps J (log ev).
Proof. intros w Hw. apply J_logged, Hw. Qed.

Lemma keeps_call env ev : keeps J (call env ev).
Proof.
  intros w Hw. unfold call, bind, log, ret, raise.
  destruct (raises env ev); cbn [snd]; apply J_logged, Hw.
Qed.

Lemma keeps_alloc o : keeps J (alloc o).
Proof. intros w Hw. apply J_alloc, Hw. Qed.

Lemma keeps_store r o :
  (forall w, J w -> J (with_heap (<[r := o]> (heap w)) w)) ->
  keeps J (store r o).
Proof. intros H w Hw. apply H, Hw. Qed.

Lemma keeps_QApplication_instance : keeps J QApplication_instance.
Proof. intros w Hw. apply J_logged, Hw. Qed.

Lemma keeps_setWindowIcon env icon :
  (forall w, J w ->
             J {| qapp := Some {| windowIcon := Some icon |};
                  heap := heap w; trace := trace w |}) ->
  keeps J (setWindowIcon env icon).
Proof.
  intros H. unfold setWindowIcon.
  apply keeps_bind; [apply keeps_call |]. intros _ w Hw. apply H, Hw.
Qed.
End Keeps.

Ltac keeps_step :=
  first
    [ apply keeps_ret | apply keeps_raise | apply keeps_load
    | apply keeps_alloc; assumption
    | apply keeps_log; assumption
    | apply keeps_call; assumption
    | apply keeps_QApplication_instance; assumption
    | apply keeps_setWindowIcon; auto; fail
    | apply keeps_store; auto
    | apply keeps_bind; [| intros ?]
    | match goal with
      | |- keeps _ (match ?x with _ => _ end) => destruct x
      end ].

(** An invariant that survives a longer trace, a new object, a write to
    [self] and a new window icon survives a construction. *)
Lemma init_keeps (J : World -> Prop) env self title ndisplay order
    axis_labels show :
  (forall ev w, J w -> J (logged ev w)) ->
  (forall o w, J w -> J (with_heap (heap w ++ [o]) w)) ->
  (forall o w, J w -> J (with_heap (<[self := o]> (heap w)) w)) ->
  (forall icon w,
      J w -> J {| qapp := Some {| windowIcon := Some icon |};
                  heap := heap w; trace := trace w |}) ->
  keeps J (__init__ env self title ndisplay order axis_labels show).
Proof.
  intros J_logged J_alloc J_self J_icon.
  unfold __init__, registration_test, platform_system, getattr_sys_frozen,
    read_napari_app_id, SetCurrentProcessExplicitAppUserModelID, QIcon,
    ViewerModel_init, QtViewer, Window, set_window.
  repeat keeps_step.
Qed.

(** The class call runs [__init__] on a new blank instance. *)
Lemma Viewer_snd env title ndisplay order axis_labels show w :
  snd (Viewer env title ndisplay order axis_labels show w)
  = snd (__init__ env (length (heap w)) title ndisplay order axis_labels show
           (with_heap (heap w ++ [ViewerObj None None]) w)).
Proof.
  unfold Viewer.
  rewrite (bind_ok (alloc (ViewerObj None None)) _ w _ _ eq_refl).
  apply snd_bind_reads. intros _ w1. reflexivity.
Qed.

(** The event loop is still there after a construction. *)
Lemma init_loop env self title ndisplay order axis_labels show w :
  is_Some (qapp w) ->
  is_Some (qapp (snd (__init__ env self title ndisplay order axis_labels show
                        w))).
Proof.
  apply (init_keeps (fun w => is_Some (qapp w))); cbn; eauto.
Qed.

Lemma shell_calls_registration env :
  shell_calls (registration_events env)
  = if String.eqb (system env) "Windows"
       && negb (truthy (default (PyBool false) (frozen env)))
       && truthy (_napari_app_id env)
    then [_napari_app_id env] else [].
Proof.
  unfold registration_events.
  destruct (String.eqb (system env) "Windows");
    destruct (truthy (default (PyBool false) (frozen env)));
    destruct (truthy (_napari_app_id env)); reflexivity.
Qed.

Lemma init_shell_calls env self title ndisplay order axis_labels show w :
  is_Some (qapp w) ->
  shell_calls
    (trace (snd (__init__ env self title ndisplay order axis_labels show w)))
  = shell_calls (trace w) ++ shell_calls (registration_events env).
Proof.
  intros [a Hq].
  destruct (init_trace env self title ndisplay order axis_labels show w a Hq)
    as (rest & E & F).
  rewrite E, !shell_calls_app, (shell_calls_later _ F), app_nil_r.
  reflexivity.
Qed.

(** X9: the registration is made by every construction, not once per
    process: after two constructions in a process with an event loop,
    however each of them ended, the shell has been called twice with the
    identity where the registration applies, and not at all where it does
    not. *)
Theorem X9_registration_each_time env title1 ndisplay1 order1 axis_labels1
    show1 title2 ndisplay2 order2 axis_labels2 show2 w a :
  qapp w = Some a ->
  shell_calls
    (trace
       (snd (Viewer env title2 ndisplay2 order2 axis_labels2 show2
               (snd (Viewer env title1 ndisplay1 order1 axis_labels1 show1
                       w)))))
  = shell_calls (trace w)
    ++ (if String.eqb (system env) "Windows"
           && negb (truthy (default (PyBool false) (frozen env)))
           && truthy (_napari_app_id env)
        then [_napari_app_id env; _napari_app_id env] else []).
Proof.
  intros Hq.
  assert (H1 : is_Some (qapp (with_heap (heap w ++ [ViewerObj None None]) w)))
    by (cbn; eauto).
  rewrite (Viewer_snd env title1).
  pose proof (init_loop env (length (heap w)) title1 ndisplay1 order1
                axis_labels1 show1 _ H1) as H2.
  pose proof (init_shell_calls env (length (heap w)) title1 ndisplay1 order1
                axis_labels1 show1 _ H1) as S1.
  cbn [trace with_heap] in S1.
  set (w1 := snd (__init__ env (length (heap w)) title1 ndisplay1 order1
                    axis_labels1 show1
                    (with_heap (heap w ++ [ViewerObj None None]) w)))
    in H2, S1 |- *.
  rewrite (Viewer_snd env title2).
  rewrite init_shell_calls by (cbn; exact H2).
  cbn [trace with_heap]. rewrite S1, shell_calls_registration, <- app_assoc.
  destruct (String.eqb (system env) "Windows"
            && negb (truthy (default (PyBool false) (frozen env)))
            && truthy (_napari_app_id env)); reflexivity.
Qed.

Lemma X9_registration_each_time_witness :
  shell_calls
    (trace
       (snd (Viewer windows_env "second" 3 None None false
               (snd (Viewer windows_env "first" 2 None None true
                       with_loop)))))
  = [PyStr "napari.napari.viewer.0.2.12";
     PyStr "napari.napari.viewer.0.2.12"].
Proof.
  exact (X9_registration_each_time windows_env "first" 2 None None true
           "second" 3 None None false with_loop {| windowIcon := None |}
           eq_refl).
Defined.

(** X10: the identity that the class sets by default enables the
    registration for every version of napari, and differs between versions:
    on Windows, from source, a construction hands the shell exactly
    ['napari.napari.viewer.' + version], and two versions never share an
    identity. *)
Theorem X10_default_identity env version self title ndisplay order
    axis_labels show w a :
  qapp w = Some a ->
  system env = "Windows" ->
  truthy (default (PyBool false) (frozen env)) = false ->
  _napari_app_id env = default_napari_app_id version ->
  shell_calls
    (trace (snd (__init__ env self title ndisplay order axis_labels show w)))
  = shell_calls (trace w) ++ [PyStr ("napari.napari.viewer." +:+ version)]
  /\ (forall other,
        default_napari_app_id other = default_napari_app_id version ->
        other = version).
Proof.
  intros Hq Hsys Hfrozen Hid. split.
  - rewrite init_shell_calls by eauto.
    rewrite shell_calls_registration, Hsys, Hfrozen, Hid. reflexivity.
  - intros other H. unfold default_napari_app_id in H. cbn in H.
    inversion H as [H1]. exact H1.
Qed.

Lemma X10_default_identity_witness :
  shell_calls
    (trace (snd (__init__ windows_env 0%nat "napari" 2 None None true
                   (with_heap [ViewerObj None None] with_loop))))
  = [PyStr "napari.napari.viewer.0.2.12"].
Proof.
  destruct (X10_default_identity windows_env "0.2.12" 0%nat "napari" 2 None
              None true (with_heap [ViewerObj None None] with_loop)
              {| windowIcon := None |} eq_refl eq_refl eq_refl eq_refl)
    as [H _].
  exact H.
Defined.




(** ** Several viewers, several operations *)

(** A constructed viewer stays constructed when another pool's queue is
    replaced. *)
Lemma viewer_ok_other_queue p queue old w self window qt_viewer console pool :
  viewer_ok w self window qt_viewer console pool ->
  heap w !! p = Some (PoolObj old) ->
  p <> pool ->
  viewer_ok (with_heap (<[p := PoolObj queue]> (heap w)) w)
    self window qt_viewer console pool.
Proof.
  intros [[m H1] [vis H2] H3 [q H4] H5] Hp Hne. split; cbn.
  - exists m. rewrite list_lookup_insert_ne; [exact H1 | congruence].
  - exists vis. rewrite list_lookup_insert_ne; [exact H2 | congruence].
  - rewrite list_lookup_insert_ne; [exact H3 | congruence].
  - exists q. rewrite list_lookup_insert_ne; [exact H4 | congruence].
  - intros c Hc. destruct (H5 c Hc) as [l Hl].
    exists l. rewrite list_lookup_insert_ne; [exact Hl | congruence].
Qed.

(** X13: two viewers with pools of their own do not disturb each other: when
    no collaborator raises and no keyword is named [func] or [self], an
    [update] on one queues its runnable on that viewer's pool, and the other viewer is still constructed on the same
    objects, with its pool's queue as it was. *)
Theorem X13_update_other_viewer env f a k w
    self window qt_viewer console pool queue
    self' window' qt_viewer' console' pool' queue' :
  viewer_ok w self window qt_viewer console pool ->
  viewer_ok w self' window' qt_viewer' console' pool' ->
  heap w !! pool = Some (PoolObj queue) ->
  heap w !! pool' = Some (PoolObj queue') ->
  pool <> pool' ->
  quiet env ->
  collision k = None ->
  exists w1,
    update env self f a k w = (Ok pool, w1)
    /\ heap w1 !! pool = Some (PoolObj (queue ++ [length (heap w)]))
    /\ heap w1 !! pool' = Some (PoolObj queue')
    /\ viewer_ok w1 self' window' qt_viewer' console' pool'.
Proof.
  intros ok ok' Hq Hq' Hne Hquiet Hk.
  pose proof (lookup_lt_Some _ _ _ Hq) as Hlt.
  eexists. split; [apply (update_ok env self f a k w _ _ _ _ _ ok Hq);
                   [apply Hquiet | apply Hquiet | exact Hk] |].
  cbn [heap]. split.
  { apply list_lookup_insert_eq. rewrite length_app. lia. }
  split.
  { rewrite list_lookup_insert_ne by congruence.
    apply lookup_app_l_Some, Hq'. }
  pose proof (viewer_ok_other_queue pool (queue ++ [length (heap w)]) queue
                _ _ _ _ _ _
                (viewer_ok_alloc
                   (TaskObj {| func := f; args := a; kwargs := k |})
                   _ _ _ _ _ _ ok')
                (lookup_app_l_Some _ _ _ _ Hq) Hne) as [H1 H2 H3 H4 H5].
  split; assumption.
Qed.

Lemma two_sessions_first_ok :
  viewer_ok two_sessions 0%nat 4%nat 3%nat (Some 1%nat) 2%nat.
Proof.
  split.
  - eexists. reflexivity.
  - eexists. reflexivity.
  - reflexivity.
  - eexists. reflexivity.
  - intros c [= <-]. eexists. reflexivity.
Qed.

Lemma two_sessions_second_ok :
  viewer_ok two_sessions 5%nat 9%nat 8%nat (Some 6%nat) 7%nat.
Proof.
  split.
  - eexists. reflexivity.
  - eexists. reflexivity.
  - reflexivity.
  - eexists. reflexivity.
  - intros c [= <-]. eexists. reflexivity.
Qed.

Lemma X13_update_other_viewer_witness :
  exists w1,
    update windows_env 0%nat "refresh" [] ∅ two_sessions = (Ok 2%nat, w1)
    /\ heap w1 !! 2%nat = Some (PoolObj [10%nat])
    /\ heap w1 !! 7%nat = Some (PoolObj []).
Proof.
  pose proof (X13_update_other_viewer windows_env "refresh" [] ∅ two_sessions
              0%nat 4%nat 3%nat (Some 1%nat) 2%nat []
              5%nat 9%nat 8%nat (Some 6%nat) 7%nat []
              two_sessions_first_ok two_sessions_second_ok eq_refl eq_refl
              ltac:(discriminate) (fun ev => eq_refl))
    as H.
  destruct (H eq_refl) as (w1 & Hu & Hp & Hp' & _).
  exists w1. auto.
Defined.

(** X14: submitting a job and injecting variables do not interfere: when no
    collaborator raises and no keyword of the job is named [func] or [self],
    [update] followed by [update_console] and
    [update_console] followed by [update] both return, and leave the same
    heap: the runnable queued on the pool, the variables with the
    console. *)
Theorem X14_update_commutes env self f a k v w window qt_viewer c pool queue
    pushed :
  viewer_ok w self window qt_viewer (Some c) pool ->
  heap w !! pool = Some (PoolObj queue) ->
  heap w !! c = Some (ConsoleObj pushed) ->
  quiet env ->
  collision k = None ->
  exists wa wa' wb wb',
    update env self f a k w = (Ok pool, wa)
    /\ update_console env self v wa = (Ok tt, wa')
    /\ update_console env self v w = (Ok tt, wb)
    /\ update env self f a k wb = (Ok pool, wb')
    /\ heap wa' = heap wb'
    /\ heap wa' !! pool = Some (PoolObj (queue ++ [length (heap w)]))
    /\ heap wa' !! c = Some (ConsoleObj (pushed ++ [v])).
Proof.
  intros ok Hq Hc Hquiet Hk.
  pose proof (lookup_lt_Some _ _ _ Hq) as Hltp.
  pose proof (lookup_lt_Some _ _ _ Hc) as Hltc.
  assert (Hne : c <> pool) by congruence.
  pose proof (update_ok env self f a k w _ _ _ _ _ ok Hq (Hquiet _)
                (Hquiet _) Hk) as Ha.
  pose proof (update_keeps_ok env self f a k w _ _ _ _ _ ok Hq (Hquiet _)
                (Hquiet _) Hk) as oka.
  rewrite Ha in oka. cbn [snd] in oka.
  set (wa := {| qapp := qapp w;
                heap := <[pool := PoolObj (queue ++ [length (heap w)])]>
                          (heap w
                           ++ [TaskObj {| func := f; args := a;
                                          kwargs := k |}]);
                trace := trace w ++ [EvQtUpdateUI f a k;
                                     EvPoolStart pool (length (heap w))] |})
    in Ha, oka.
  assert (Hca : heap wa !! c = Some (ConsoleObj pushed)).
  { cbn. rewrite list_lookup_insert_ne by congruence.
    apply lookup_app_l_Some, Hc. }
  pose proof (update_console_attached env self v wa _ _ _ _ _ oka Hca
                (Hquiet _)) as Ha'.
  pose proof (update_console_attached env self v w _ _ _ _ _ ok Hc
                (Hquiet _)) as Hb.
  pose proof (viewer_ok_pushed (pushed ++ [v]) _ _ _ _ _ _ _
                (viewer_ok_logged (EvConsolePush c v) _ _ _ _ _ _ ok) Hc)
    as okb.
  set (wb := with_heap (<[c := ConsoleObj (pushed ++ [v])]> (heap w))
               (logged (EvConsolePush c v) w)) in Hb, okb.
  assert (Hqb : heap wb !! pool = Some (PoolObj queue)).
  { cbn. rewrite list_lookup_insert_ne by congruence. exact Hq. }
  pose proof (update_ok env self f a k wb _ _ _ _ _ okb Hqb (Hquiet _)
                (Hquiet _) Hk) as Hb'.
  do 4 eexists.
  split; [exact Ha |]. split; [exact Ha' |].
  split; [exact Hb |]. split; [exact Hb' |].
  subst wa wb. cbn. rewrite length_insert.
  split.
  { rewrite <- (insert_app_l (heap w) _ c) by exact Hltc.
    apply list_insert_insert_ne. exact Hne. }
  split.
  - rewrite list_lookup_insert_ne by exact Hne.
    apply list_lookup_insert_eq. rewrite length_app. lia.
  - apply list_lookup_insert_eq.
    rewrite length_insert, length_app. lia.
Qed.

Lemma X14_update_commutes_witness :
  exists wa wa' wb wb',
    update windows_env 0%nat "refresh" [] ∅ (session windows_env)
    = (Ok 2%nat, wa)
    /\ update_console windows_env 0%nat (VarStr "a") wa = (Ok tt, wa')
    /\ update_console windows_env 0%nat (VarStr "a") (session windows_env)
       = (Ok tt, wb)
    /\ update windows_env 0%nat "refresh" [] ∅ wb = (Ok 2%nat, wb')
    /\ heap wa' = heap wb'.
Proof.
  pose proof (X14_update_commutes windows_env 0%nat "refresh" [] ∅
              (VarStr "a") (session windows_env) 4%nat 3%nat 1%nat 2%nat
              [] [] session_windows_ok eq_refl eq_refl (fun ev => eq_refl))
    as H.
  destruct (H eq_refl) as (wa & wa' & wb & wb' & H1 & H2 & H3 & H4 & H5 & _).
  exists wa, wa', wb, wb'. auto.
Defined.

(** ** From construction to use *)

Lemma lookup_built_at (h tl : list obj) (self n i k : nat) (v x : obj) :
  length h = n -> (self < n)%nat -> i = (n + k)%nat ->
  tl !! k = Some x ->
  <[self := v]> (h ++ tl) !! i = Some x.
Proof.
  intros <- Hlt -> Hk. apply lookup_built; assumption.
Qed.

(** The object number [k] among those a construction appended. *)
Ltac built idx :=
  match goal with
  | Hlt : (_ < length (heap _))%nat |- _ =>
      cbn [heap]; eapply lookup_built_at with (k := idx);
      [apply length_insert | exact Hlt | lia | reflexivity]
  end.

(** When no collaborator raises, the steps of a construction from the icon
    on build a viewer on new objects: a window visible as [show] says, a
    [qt_viewer], an empty pool and, in an interactive host, an empty
    console. *)
Lemma init_tail_builds env self title ndisplay order axis_labels show w m0
    window0 :
  quiet env ->
  heap w !! self = Some (ViewerObj m0 window0) ->
  exists w' window qt_viewer console pool,
    (icon <- QIcon env (logopath env) ;;
     setWindowIcon env icon ;;
     ViewerModel_init env self title ndisplay order axis_labels ;;
     qt_viewer <- QtViewer env self ;;
     window <- Window env qt_viewer show ;;
     set_window self window) w = (Ok tt, w')
    /\ viewer_ok w' self window qt_viewer console pool
    /\ heap w' !! window = Some (WindowObj qt_viewer show)
    /\ heap w' !! pool = Some (PoolObj [])
    /\ (forall c, console = Some c -> heap w' !! c = Some (ConsoleObj []))
    /\ (console = None <-> has_console env = false)
    /\ (length (heap w) <= pool)%nat
    /\ (forall r o, heap w !! r = Some o -> r <> self ->
                    heap w' !! r = Some o).
Proof.
  intros Hquiet Hself.
  pose proof (lookup_lt_Some _ _ _ Hself) as Hlt.
  pose proof (list_lookup_insert_eq (heap w) self
                (ViewerObj
                   (Some {| title := title; ndisplay := ndisplay;
                            order := order; axis_labels := axis_labels |})
                   window0) Hlt) as Hself1.
  unfold QIcon, setWindowIcon, ViewerModel_init, QtViewer, Window,
    set_window, call.
  unfold bind, log, ret, raise, alloc, load, store, logged, with_heap.
  run. rewrite ?Hquiet; run. rewrite Hself; run. rewrite ?Hquiet; run.
  destruct (has_console env); run; rewrite ?Hquiet; run;
    erewrite lookup_app_l_Some
      by (repeat apply lookup_app_l_Some; exact Hself1);
    rewrite <- !app_assoc; cbn [app]; rewrite !length_app, !length_insert;
    cbn [length].
  - run. eexists.
    exists (length (heap w) + 3)%nat, (length (heap w) + 2)%nat,
      (Some (length (heap w))), (length (heap w) + 1)%nat.
    split; [reflexivity |]. cbn [heap].
    split; [split |].
    + eexists. cbn [heap]. apply list_lookup_insert_eq.
      rewrite length_app, length_insert. lia.
    + eexists. built 3%nat.
    + built 2%nat.
    + eexists. built 1%nat.
    + intros c [= <-]. eexists. built 0%nat.
    + split; [built 3%nat |]. split; [built 1%nat |].
      split; [intros c [= <-]; built 0%nat |].
      split; [split; discriminate |]. split; [lia |].
      intros r o Hr Hne. cbn [heap].
      rewrite list_lookup_insert_ne by congruence.
      apply lookup_app_l_Some. rewrite list_lookup_insert_ne by congruence.
      exact Hr.
  - run. eexists.
    exists (length (heap w) + 2)%nat, (length (heap w) + 1)%nat, None,
      (length (heap w)).
    split; [reflexivity |]. cbn [heap].
    split; [split |].
    + eexists. cbn [heap]. apply list_lookup_insert_eq.
      rewrite length_app, length_insert. lia.
    + eexists. built 2%nat.
    + built 1%nat.
    + eexists. built 0%nat.
    + intros c [=].
    + split; [built 2%nat |]. split; [built 0%nat |].
      split; [intros c [=] |].
      split; [split; reflexivity |]. split; [lia |].
      intros r o Hr Hne. cbn [heap].
      rewrite list_lookup_insert_ne by congruence.
      apply lookup_app_l_Some. rewrite list_lookup_insert_ne by congruence.
      exact Hr.
Qed.

(** When no collaborator raises, [Viewer(...)] in a process with an event
    loop returns a new viewer, constructed on new objects. *)
Lemma Viewer_builds env title ndisplay order axis_labels show w a :
  qapp w = Some a ->
  quiet env ->
  exists w' window qt_viewer console pool,
    Viewer env title ndisplay order axis_labels show w
    = (Ok (length (heap w)), w')
    /\ viewer_ok w' (length (heap w)) window qt_viewer console pool
    /\ heap w' !! window = Some (WindowObj qt_viewer show)
    /\ heap w' !! pool = Some (PoolObj [])
    /\ (forall c, console = Some c -> heap w' !! c = Some (ConsoleObj []))
    /\ (console = None <-> has_console env = false)
    /\ heap w !! pool = None
    /\ (forall r o, heap w !! r = Some o -> heap w' !! r = Some o).
Proof.
  intros Hq Hquiet.
  assert (Hinit : exists w' window qt_viewer console pool,
            __init__ env (length (heap w)) title ndisplay order axis_labels
              show (with_heap (heap w ++ [ViewerObj None None]) w)
            = (Ok tt, w')
            /\ viewer_ok w' (length (heap w)) window qt_viewer console pool
            /\ heap w' !! window = Some (WindowObj qt_viewer show)
            /\ heap w' !! pool = Some (PoolObj [])
            /\ (forall c, console = Some c ->
                          heap w' !! c = Some (ConsoleObj []))
            /\ (console = None <-> has_console env = false)
            /\ heap w !! pool = None
            /\ (forall r o, heap w !! r = Some o ->
                            heap w' !! r = Some o)).
  { pose proof (fun w0 H =>
                  init_tail_builds env (length (heap w)) title ndisplay order
                    axis_labels show w0 None None Hquiet H) as Htail.
    unfold __init__.
    rewrite (bind_ok QApplication_instance _ _ (Some a)
               (logged EvQApplicationInstance
                  (with_heap (heap w ++ [ViewerObj None None]) w)))
      by (unfold QApplication_instance, bind, log; cbn; rewrite Hq;
          reflexivity).
    revert Htail.
    generalize (icon <- QIcon env (logopath env) ;;
                setWindowIcon env icon ;;
                ViewerModel_init env (length (heap w)) title ndisplay order
                  axis_labels ;;
                qt_viewer <- QtViewer env (length (heap w)) ;;
                window <- Window env qt_viewer show ;;
                set_window (length (heap w)) window).
    intros tail Htail.
    unfold registration_test, platform_system, getattr_sys_frozen,
      read_napari_app_id, SetCurrentProcessExplicitAppUserModelID, call.
    unfold bind, log, ret, raise, logged, with_heap. run.
    destruct (String.eqb (system env) "Windows"); run;
      [destruct (truthy (default (PyBool false) (frozen env))); run;
       [| destruct (truthy (_napari_app_id env)); run] |];
      rewrite ?Hquiet; run;
      match goal with
      | |- context [tail ?w1] =>
          destruct (Htail w1) as (w' & window & qt_viewer & console & pool
                                  & E & ok & Hw & Hp & Hc & Hn & Hl & Hf);
          [cbn [heap]; apply list_lookup_middle; reflexivity |];
          exists w', window, qt_viewer, console, pool;
          split; [exact E |];
          split; [exact ok |]; split; [exact Hw |]; split; [exact Hp |];
          split; [exact Hc |]; split; [exact Hn |];
          split;
          [apply lookup_ge_None; cbn [heap] in Hl;
           rewrite length_app in Hl; cbn [length] in Hl; lia |];
          intros r o Hr; apply Hf;
          [cbn [heap]; apply lookup_app_l_Some, Hr
          | apply lookup_lt_Some in Hr; lia]
      end. }
  destruct Hinit as (w' & window & qt_viewer & console & pool & E & H).
  exists w', window, qt_viewer, console, pool. split; [| exact H].
  unfold Viewer.
  rewrite (bind_ok (alloc (ViewerObj None None)) _ w _ _ eq_refl).
  rewrite (bind_ok _ _ _ _ _ E). reflexivity.
Qed.

Lemma show_ok env self w window qt_viewer console pool :
  viewer_ok w self window qt_viewer console pool ->
  raises env (EvWindowShow window) = None ->
  show env self w
  = (Ok tt, with_heap (<[window := WindowObj qt_viewer true]> (heap w))
              (logged (EvWindowShow window) w)).
Proof.
  intros ok Hr. destruct (ok_window _ _ _ _ _ _ ok) as [vis Hw].
  unfold show. rewrite (bind_ok _ _ _ _ _ (get_window_ok ok)).
  unfold Window_show. rewrite (bind_ok _ _ _ _ _ (call_ok _ _ _ Hr)).
  unfold bind, load. cbn. rewrite Hw. reflexivity.
Qed.

(** A viewer stays constructed in a world that keeps every object. *)
Lemma viewer_ok_frame w w' self window qt_viewer console pool :
  (forall r o, heap w !! r = Some o -> heap w' !! r = Some o) ->
  viewer_ok w self window qt_viewer console pool ->
  viewer_ok w' self window qt_viewer console pool.
Proof.
  intros Hf [[m H1] [vis H2] H3 [q H4] H5]. split; eauto.
  intros c Hc. destruct (H5 c Hc) as [l Hl]. eauto.
Qed.

(** X15: when no collaborator raises, the viewer that [Viewer(...,
    show=False)] returns in a process with an event loop is ready for every
    method: [show] shows the window that the construction made and left
    hidden, [update] with no keyword named [func] or [self] queues its
    runnable first on the viewer's pool and returns that pool,
    [update_console] pushes to the console if the host
    gave one and does nothing otherwise, and [screenshot] returns the capture
    of the canvas. *)
Theorem X15_construct_then_use env title ndisplay order axis_labels w a
    f args kwargs v :
  qapp w = Some a ->
  quiet env ->
  exists self w1 window qt_viewer console pool,
    Viewer env title ndisplay order axis_labels false w = (Ok self, w1)
    /\ heap w1 !! window = Some (WindowObj qt_viewer false)
    /\ show env self w1
       = (Ok tt,
          with_heap (<[window := WindowObj qt_viewer true]> (heap w1))
            (logged (EvWindowShow window) w1))
    /\ (collision kwargs = None ->
        exists w2,
          update env self f args kwargs w1 = (Ok pool, w2)
          /\ heap w2 !! pool = Some (PoolObj [length (heap w1)]))
    /\ (has_console env = false ->
        update_console env self v w1 = (Ok tt, w1))
    /\ (has_console env = true ->
        exists c,
          console = Some c
          /\ update_console env self v w1
             = (Ok tt, with_heap (<[c := ConsoleObj [v]]> (heap w1))
                         (logged (EvConsolePush c v) w1)))
    /\ screenshot env self None false w1
       = (Ok (grab (canvas_surface env)),
          logged (EvQtViewerScreenshot qt_viewer None) w1).
Proof.
  intros Hq Hquiet.
  destruct (Viewer_builds env title ndisplay order axis_labels false w a
              Hq Hquiet)
    as (w1 & window & qt_viewer & console & pool & E & ok & Hw & Hp & Hc
        & Hn & _ & _).
  exists (length (heap w)), w1, window, qt_viewer, console, pool.
  split; [exact E |]. split; [exact Hw |].
  split; [apply (show_ok env _ w1 _ _ _ _ ok), Hquiet |].
  split.
  { intros Hk. eexists. split.
    - apply (update_ok env _ f args kwargs w1 _ _ _ _ _ ok Hp);
        [apply Hquiet | apply Hquiet | exact Hk].
    - cbn [heap]. apply list_lookup_insert_eq. rewrite length_app.
      pose proof (lookup_lt_Some _ _ _ Hp). lia. }
  split.
  { intros Hno. apply Hn in Hno. subst console.
    eapply update_console_detached, ok. }
  split.
  { intros Hyes. destruct console as [c |].
    - exists c. split; [reflexivity |].
      apply (update_console_attached env _ v w1 _ _ _ _ [] ok (Hc c eq_refl)),
        Hquiet.
    - destruct Hn as [Hn _]. rewrite (Hn eq_refl) in Hyes. discriminate. }
  unfold screenshot.
  rewrite (bind_ok _ _ _ _ _ (get_window_ok ok)).
  rewrite (bind_ok _ _ _ _ _ (get_qt_viewer_ok ok)).
  unfold QtViewer_screenshot.
  rewrite (bind_ok _ _ _ _ _ (call_ok _ _ _ (Hquiet _))). reflexivity.
Qed.

Lemma X15_construct_then_use_witness :
  exists self w1 pool w2,
    Viewer windows_env "napari" 2 None None false with_loop = (Ok self, w1)
    /\ update windows_env self "refresh" [] ∅ w1 = (Ok pool, w2)
    /\ heap w2 !! pool = Some (PoolObj [length (heap w1)]).
Proof.
  destruct (X15_construct_then_use windows_env "napari" 2 None None
              with_loop {| windowIcon := None |} "refresh" [] ∅
              (VarStr "a") eq_refl (fun ev => eq_refl))
    as (self & w1 & window & qt_viewer & console & pool & E & _ & _
        & Hupdate & _).
  destruct (Hupdate eq_refl) as (w2 & Hu & Hp).
  exists self, w1, pool, w2. auto.
Defined.

(** X16: two viewers opened one after the other in the same process, when no
    collaborator raises, are distinct objects with distinct pools; the second
    construction leaves the first viewer constructed on its own objects, its
    pool's queue still empty. *)
Theorem X16_second_viewer env title1 ndisplay1 order1 axis_labels1 show1
    title2 ndisplay2 order2 axis_labels2 show2 w a :
  qapp w = Some a ->
  quiet env ->
  exists self1 w1 window1 qt_viewer1 console1 pool1
         self2 w2 window2 qt_viewer2 console2 pool2,
    Viewer env title1 ndisplay1 order1 axis_labels1 show1 w = (Ok self1, w1)
    /\ Viewer env title2 ndisplay2 order2 axis_labels2 show2 w1
       = (Ok self2, w2)
    /\ viewer_ok w2 self1 window1 qt_viewer1 console1 pool1
    /\ viewer_ok w2 self2 window2 qt_viewer2 console2 pool2
    /\ self1 <> self2
    /\ pool1 <> pool2
    /\ heap w2 !! pool1 = Some (PoolObj [])
    /\ heap w2 !! pool2 = Some (PoolObj []).
Proof.
  intros Hq Hquiet.
  destruct (Viewer_builds env title1 ndisplay1 order1 axis_labels1 show1 w a
              Hq Hquiet)
    as (w1 & window1 & qt_viewer1 & console1 & pool1 & E1 & ok1 & _ & Hp1
        & _ & _ & _ & _).
  assert (Hq1 : is_Some (qapp w1)).
  { replace w1 with (snd (Viewer env title1 ndisplay1 order1 axis_labels1
                            show1 w)) by (rewrite E1; reflexivity).
    rewrite Viewer_snd. apply init_loop. cbn. eauto. }
  destruct Hq1 as [a1 Hq1].
  destruct (Viewer_builds env title2 ndisplay2 order2 axis_labels2 show2 w1
              a1 Hq1 Hquiet)
    as (w2 & window2 & qt_viewer2 & console2 & pool2 & E2 & ok2 & _ & Hp2
        & _ & _ & Hnew & Hframe).
  exists (length (heap w)), w1, window1, qt_viewer1, console1, pool1,
    (length (heap w1)), w2, window2, qt_viewer2, console2, pool2.
  split; [exact E1 |]. split; [exact E2 |].
  split; [exact (viewer_ok_frame _ _ _ _ _ _ _ Hframe ok1) |].
  split; [exact ok2 |].
  split.
  { destruct (ok_self _ _ _ _ _ _ ok1) as [m Hm].
    apply lookup_lt_Some in Hm. lia. }
  split; [congruence |].
  split; [apply Hframe, Hp1 | exact Hp2].
Qed.

Lemma X16_second_viewer_witness :
  exists self1 w1 self2 w2,
    Viewer windows_env "first" 2 None None true with_loop = (Ok self1, w1)
    /\ Viewer windows_env "second" 3 None None false w1 = (Ok self2, w2)
    /\ self1 <> self2.
Proof.
  destruct (X16_second_viewer windows_env "first" 2 None None true
              "second" 3 None None false with_loop {| windowIcon := None |}
              eq_refl (fun ev => eq_refl))
    as (self1 & w1 & _ & _ & _ & _ & self2 & w2 & _ & _ & _ & _
        & E1 & E2 & _ & _ & Hne & _).
  exists self1, w1, self2, w2. auto.
Defined.
